(** * counting-sort-omp: the evaluation script [scripts/evaluate.py]

    A shallow embedding of the script that reduces the raw timing
    measurements of the counting-sort benchmark to per-scenario comparison
    tables, and the properties its specification states about it.

    - Python floats are IEEE-754 binary64 values: [spec_float] of the
      Standard Library at precision 53, with the correctly rounded operations
      [SFadd], [SFdiv], ... computed on integers.
    - Exceptions are values of [exn]; a computation that can raise returns a
      [result]. The script catches nothing: an exception ends the run.
    - The libraries are embedded by what they compute: [Decimal] rounding in
      [my_round], scipy's [norm.fit] in [norm_fit], over a summation [np_sum]
      that stands for numpy's, and the row check of [PrettyTable] in
      [write_table]. The plots of [plots.py] read the rows they are given and
      are not part of the model.
    - The file system (directory walk, [scandir], [listdir], [read_csv]) is a
      record of functions; the tables handed to the writer are the trace of a
      run. *)

From Stdlib Require Import ZArith Bool List Ascii String Lia.
From Stdlib Require Import Sorting.Sorted Sorting.Permutation.
From Stdlib Require Import Floats.SpecFloat.
From stdpp Require Import base option list strings gmap.

Local Open Scope Z_scope.

(** ** Exceptions and results *)

Inductive exn : Type :=
  | ValueError
  | KeyError
  | IndexError
  | UnboundLocalError
  | ZeroDivisionError
  | InvalidOperation
  | OverflowError
  | OSError
  | RowArityError.

Inductive result (A : Type) : Type :=
  | Ok (a : A)
  | Raise (e : exn).
Arguments Ok {A} a.
Arguments Raise {A} e.

#[global] Instance result_ret : MRet result := fun _ a => Ok a.
#[global] Instance result_bind : MBind result := fun _ _ k m =>
  match m with
  | Ok a => k a
  | Raise e => Raise e
  end.

#[global] Instance result_fmap : FMap result := fun _ _ f m =>
  match m with
  | Ok a => Ok (f a)
  | Raise e => Raise e
  end.

Definition of_option {A} (e : exn) (o : option A) : result A :=
  match o with
  | Some a => Ok a
  | None => Raise e
  end.

(** ** Binary64 *)

Module F64.

Definition prec : Z := 53.
Definition emax : Z := 1024.

Definition float : Type := spec_float.

Definition add : float -> float -> float := SFadd prec emax.
Definition sub : float -> float -> float := SFsub prec emax.
Definition mul : float -> float -> float := SFmul prec emax.
Definition div : float -> float -> float := SFdiv prec emax.
Definition sqrt : float -> float := SFsqrt prec emax.
Definition ltb : float -> float -> bool := SFltb.

Definition zero : float := S754_zero false.

(** The binary64 value nearest to the integer [n] (ties to even). *)
Definition of_Z (n : Z) : float := binary_normalize prec emax n 0 false.

(** The binary64 value nearest to [n / d] for [n, d > 0], with sign [s]:
    the quotient is computed with its position relative to the next
    representable values and rounded once, ties to even. *)
Definition of_ratio (s : bool) (n d : positive) : float :=
  let '(q, e, l) := SFdiv_core_binary prec emax (Zpos n) 0 (Zpos d) 0 in
  binary_round_aux prec emax s q e l.

Definition is_finite (x : float) : bool :=
  match x with
  | S754_zero _ | S754_finite _ _ _ => true
  | S754_infinity _ | S754_nan => false
  end.

Definition is_zero (x : float) : bool :=
  match x with
  | S754_zero _ => true
  | _ => false
  end.

(** A well-formed binary64 datum: the mantissa and exponent of a finite value
    are the canonical ones. *)
Definition valid (x : float) : bool := valid_binary prec emax x.

End F64.

Abbreviation float := F64.float.

(** Python's [a / b] on floats: a zero divisor raises. *)
Definition py_truediv (a b : float) : result float :=
  if F64.is_zero b then Raise ZeroDivisionError else Ok (F64.div a b).

(** ** [my_round]: decimal rounding to 5 digits

    [Decimal(num)] is the exact value of the float; [round(_, 5)] quantizes it
    to exponent -5 in the default context (28 digits, ties to even), which
    signals [InvalidOperation] on an infinity and on a coefficient of more
    than 28 digits and passes a NaN through; [float(_)] is the nearest
    binary64 value, a zero keeping the sign. *)

(** [n / 2^k] rounded to the nearest integer, ties to even. *)
Definition div_pow2_half_even (n : Z) (k : positive) : Z :=
  let d := Z.pow_pos 2 k in
  let q := n / d in
  let r := n mod d in
  match Z.compare (2 * r) d with
  | Lt => q
  | Gt => q + 1
  | Eq => if Z.even q then q else q + 1
  end.

(** The coefficient of [m * 2^e] quantized to exponent -5. *)
Definition quantize5 (m : positive) (e : Z) : Z :=
  match e with
  | Z0 => Zpos m * 100000
  | Zpos p => Zpos m * Z.pow_pos 2 p * 100000
  | Zneg p => div_pow2_half_even (Zpos m * 100000) p
  end.

Definition decimal_prec_limit : Z := 10 ^ 28.

Definition my_round (num : float) : result float :=
  match num with
  | S754_nan => Ok S754_nan
  | S754_infinity _ => Raise InvalidOperation
  | S754_zero s => Ok (S754_zero s)
  | S754_finite s m e =>
      let c := quantize5 m e in
      if decimal_prec_limit <=? c then Raise InvalidOperation
      else match c with
           | Zpos p => Ok (F64.of_ratio s p 100000)
           | _ => Ok (S754_zero s)
           end
  end.

(** Python's [float(n)] for an int: the nearest binary64 value, an
    [OverflowError] beyond the finite range. *)
Definition py_float_of_int (n : Z) : result float :=
  let x := F64.of_Z n in
  if F64.is_finite x then Ok x else Raise OverflowError.

(** ** Strings and paths

    File names are strings of 8-bit characters; the operations below are those
    of Python's [str] and [os.path] that the script uses, on ASCII names. *)

Fixpoint drop_chars (n : nat) (s : string) : string :=
  match n, s with
  | O, _ => s
  | S n', String _ s' => drop_chars n' s'
  | S _, EmptyString => EmptyString
  end.

(** [s.find(sub)]: the lowest index where [sub] occurs, [None] for Python's -1. *)
Fixpoint find (sub s : string) : option nat :=
  if String.prefix sub s then Some O
  else match s with
       | EmptyString => None
       | String _ s' => S <$> find sub s'
       end.

(** [s.index(c, start)] for a one-character [c]; [None] stands for the
    [ValueError] of a character that does not occur. *)
Definition index_from (c : ascii) (start : nat) (s : string) : option nat :=
  if (start <=? String.length s)%nat
  then (fun i => (start + i)%nat) <$> find (String c EmptyString) (drop_chars start s)
  else None.

(** [s[a:b]] for [0 <= a <= b]. *)
Definition slice (a b : nat) (s : string) : string := substring a (b - a) s.

Definition endswith (s suffix : string) : bool :=
  (String.length suffix <=? String.length s)%nat &&
  String.eqb (drop_chars (String.length s - String.length suffix) s) suffix.

Fixpoint basename_from (acc s : string) : string :=
  match s with
  | EmptyString => acc
  | String c s' =>
      if Ascii.eqb c "/"%char then basename_from EmptyString s'
      else basename_from (acc +:+ String c EmptyString) s'
  end.

(** [os.path.basename]: what follows the last slash. *)
Definition basename (p : string) : string := basename_from EmptyString p.

(** [os.path.join(a, b)]. *)
Definition path_join (a b : string) : string :=
  if String.prefix "/" b then b
  else if String.eqb a "" || endswith a "/" then a +:+ b
  else a +:+ "/" +:+ b.

Fixpoint insert_sorted (x : string) (l : list string) : list string :=
  match l with
  | [] => [x]
  | y :: l' => if String.leb x y then x :: l else y :: insert_sorted x l'
  end.

(** [sorted(l)] on strings: ascending code-point order. *)
Definition sorted (l : list string) : list string :=
  foldr insert_sorted [] l.

(** *** [int(s)] *)

Definition is_py_space (c : ascii) : bool :=
  let n := N_of_ascii c in
  ((9 <=? n) && (n <=? 13) || (28 <=? n) && (n <=? 32))%N.

Definition digit_val (c : ascii) : option Z :=
  let n := N_of_ascii c in
  if ((48 <=? n) && (n <=? 57))%N then Some (Z.of_N n - 48) else None.

Fixpoint lstrip (s : string) : string :=
  match s with
  | String c s' => if is_py_space c then lstrip s' else s
  | EmptyString => s
  end.

Definition strip (s : string) : string :=
  String.rev (lstrip (String.rev (lstrip s))).

(** Decimal digits with single underscores between them; [prev] tells whether
    the previous character was a digit. *)
Fixpoint digits_value (acc : Z) (prev : bool) (s : string) : option Z :=
  match s with
  | EmptyString => if prev then Some acc else None
  | String c s' =>
      match digit_val c with
      | Some d => digits_value (10 * acc + d) true s'
      | None =>
          if Ascii.eqb c "_"%char && prev then digits_value acc false s'
          else None
      end
  end.

(** [int(s)] in base 10: surrounding white space, an optional sign, digits.
    [None] stands for the [ValueError] of an invalid literal. *)
Definition py_int (s : string) : option Z :=
  match strip s with
  | String c s' =>
      if Ascii.eqb c "-"%char then Z.opp <$> digits_value 0 false s'
      else if Ascii.eqb c "+"%char then digits_value 0 false s'
      else digits_value 0 false (String c s')
  | EmptyString => None
  end.

(** ** [parse_file_name] *)

(** The text after the first [mark] and before the next [stop], as the three
    extraction steps of [parse_file_name] compute it:
    [start = filename.index(mark) + 1], [end = filename.index(stop, start)],
    [int(filename[start : end])]. *)
Definition field_text (mark stop : ascii) (filename : string) : result string :=
  i ← of_option ValueError (index_from mark 0 filename);
  let start := S i in
  stop_at ← of_option ValueError (index_from stop start filename);
  Ok (slice start stop_at filename).

Definition int_field (mark stop : ascii) (filename : string) : result Z :=
  t ← field_text mark stop filename;
  of_option ValueError (py_int t).

Definition parse_file_name (filename : string) : result (bool * Z * Z * Z) :=
  let filename := basename filename in
  size ← int_field "S"%char "_"%char filename;
  num_threads ← int_field "T"%char "_"%char filename;
  opt_lvl ← int_field "O"%char "."%char filename;
  let is_serial := if num_threads =? 0 then true else false in
  Ok (is_serial, size, num_threads, opt_lvl).

(** ** Rows and per-file means *)

(** An entry of a table row: the rows are heterogeneous Python lists. *)
Inductive value : Type :=
  | VStr (s : string)
  | VInt (n : Z)
  | VFloat (x : float).

Definition row : Type := list value.

(** An insertion-ordered [dict] from column names to means. *)
Definition file_mean : Type := list (string * float).

Fixpoint dict_set (k : string) (v : float) (d : file_mean) : file_mean :=
  match d with
  | [] => [(k, v)]
  | (k', v') :: d' =>
      if String.eqb k k' then (k, v) :: d' else (k', v') :: dict_set k v d'
  end.

Fixpoint dict_lookup (k : string) (d : file_mean) : option float :=
  match d with
  | [] => None
  | (k', v) :: d' => if String.eqb k k' then Some v else dict_lookup k d'
  end.

(** [d[k]]: a missing key raises [KeyError]. *)
Definition dict_get (d : file_mean) (k : string) : result float :=
  of_option KeyError (dict_lookup k d).

Definition dict_keys (d : file_mean) : list string := map fst d.

(** A [for] loop whose body can raise, collecting one result per element. *)
Fixpoint for_each {A B} (f : A -> result B) (l : list A) : result (list B) :=
  match l with
  | [] => Ok []
  | a :: l' => b ← f a; bs ← for_each f l'; Ok (b :: bs)
  end.

(** A [for] loop threading a state through a body that can raise. *)
Fixpoint for_fold {A S} (f : S -> A -> result S) (s : S) (l : list A) : result S :=
  match l with
  | [] => Ok s
  | a :: l' => s' ← f s a; for_fold f s' l'
  end.

(** The table of a pandas [DataFrame]: its columns by name. *)
Definition dataframe : Type := list (string * list float).

Fixpoint df_lookup (col : string) (content : dataframe) : option (list float) :=
  match content with
  | [] => None
  | (c, data) :: content' =>
      if String.eqb col c then Some data else df_lookup col content'
  end.

Definition df_col (content : dataframe) (col : string) : result (list float) :=
  of_option KeyError (df_lookup col content).

(** ** [calculate_means] *)

Section Stats.

(** numpy's [add.reduce] over a float64 array: a sum of correctly rounded
    additions whose order depends on the length of the array and on the
    build of the library. *)
Variable np_sum : list float -> float.

(** [data.mean()]. *)
Definition np_mean (data : list float) : float :=
  F64.div (np_sum data) (F64.of_Z (Z.of_nat (length data))).

(** scipy's [norm.fit]: the data must be finite; the location is the mean, the
    scale the square root of the mean squared deviation. *)
Definition norm_fit (data : list float) : result (float * float) :=
  if forallb F64.is_finite data then
    let loc := np_mean data in
    let scale :=
      F64.sqrt (np_mean (map (fun x => let d := F64.sub x loc in F64.mul d d) data)) in
    Ok (loc, scale)
  else Raise ValueError.

(** The samples the boolean mask of [calculate_means] keeps. *)
Definition inside (mean std : float) (x : float) : bool :=
  F64.ltb (F64.sub mean std) x && F64.ltb x (F64.add mean std).

(** The body of the loop over the columns: the rounded mean of one column. *)
Definition column_mean (curr_data : list float) : result float :=
  '(mean, std) ← norm_fit curr_data;
  let curr_data := List.filter (inside mean std) curr_data in
  mean ← (if (length curr_data =? 0)%nat then my_round F64.zero
          else fst <$> norm_fit curr_data);
  my_round mean.

Definition columns : list string := ["time_init"; "time_sort"].

(** The body of the loop over the files: the means of one file. *)
Definition file_means (content : dataframe) : result file_mean :=
  file_mean ← for_fold (fun (file_mean : file_mean) col =>
                 curr_data ← df_col content col;
                 mean ← column_mean curr_data;
                 Ok (dict_set col mean file_mean)) [] columns;
  time_init ← dict_get file_mean "time_init";
  time_sort ← dict_get file_mean "time_sort";
  time_elapsed ← my_round (F64.add time_init time_sort);
  Ok (dict_set "time_elapsed" time_elapsed file_mean).

Definition calculate_means (read_csv : string -> result dataframe)
    (files : list string) : result (gmap string file_mean) :=
  for_fold (fun (all_means : gmap string file_mean) file =>
              content ← read_csv file;
              file_mean ← file_means content;
              Ok (<[file := file_mean]> all_means)) ∅ files.

End Stats.

(** Summation from the first element on, left to right. *)
Definition seq_sum (data : list float) : float :=
  match data with
  | [] => F64.zero
  | x :: data' => fold_left F64.add data' x
  end.

(** ** [create_row] *)

Definition measure_type (is_serial : bool) (opt_lvl : Z) : string :=
  if is_serial then (if opt_lvl =? 0 then "Default" else "Serial")
  else "Parallel".

Definition create_row (file : string) (is_serial : bool)
    (size num_threads opt_lvl : Z) (means : gmap string file_mean) : result row :=
  let row := [VStr (measure_type is_serial opt_lvl); VInt size;
              VInt num_threads; VInt opt_lvl] in
  file_mean ← of_option KeyError (means !! file);
  cols ← for_each (fun col => VFloat <$> dict_get file_mean col) (dict_keys file_mean);
  let row := row ++ cols in
  Ok (if is_serial then row ++ [VInt 1; VInt 1] else row).

(** ** [make_table] *)

Definition fields : list string :=
  ["Type"; "Size"; "Threads"; "Opt Lvl"; "Time Init"; "Time Sort";
   "Time Total"; "Speedup"; "Efficiency"].

(** What the script sees of its environment. *)
Record world : Type := {
  argv : list string;
  (** [os.walk(top)]: the directories under [top] with the files of each *)
  walk : string -> list (string * list string);
  (** [os.scandir(dir)]: the entries of [dir], each with its [is_dir()] *)
  scandir : string -> list (string * bool);
  (** [os.listdir(dir)] *)
  listdir : string -> list string;
  (** [pandas.read_csv(file, sep=';')] *)
  read_csv : string -> result dataframe
}.

(** The local variables of [make_table] that live across iterations;
    [None] is a variable not yet assigned. *)
Record locals : Type := {
  rows : list row;
  first_row : option row;
  time_serial : option float
}.

Definition init_locals : locals :=
  {| rows := []; first_row := None; time_serial := None |}.

(** What [write_table] and [plot_table] are called with for one directory. *)
Record table : Type := {
  table_dir : string;
  table_fields : list string;
  table_rows : list row
}.

(** The body of the loop over the files of one directory. *)
Definition file_step (means : gmap string file_mean) (st : locals)
    (file : string) : result locals :=
  '(is_serial, size, num_threads, opt_lvl) ← parse_file_name file;
  row ← create_row file is_serial size num_threads opt_lvl means;
  if is_serial : bool then
    file_mean ← of_option KeyError (means !! file);
    time_serial ← dict_get file_mean "time_elapsed";
    Ok {| rows := rows st ++ [row]; first_row := first_row st;
          time_serial := Some time_serial |}
  else
    file_mean ← of_option KeyError (means !! file);
    time_parallel ← dict_get file_mean "time_elapsed";
    time_serial ← of_option UnboundLocalError (time_serial st);
    speedup ← py_truediv time_serial time_parallel ≫= my_round;
    threads ← py_float_of_int num_threads;
    efficiency ← py_truediv speedup threads ≫= my_round;
    Ok {| rows := rows st ++ [row ++ [VFloat speedup; VFloat efficiency]];
          first_row := first_row st; time_serial := Some time_serial |}.

(** The branch of a directory whose name ends in [opt_0]: its first file
    becomes the default case. *)
Definition default_step (w : world) (means : gmap string file_mean)
    (st : locals) (subdir : string) : result locals :=
  file ← of_option IndexError (head (listdir w subdir));
  '(is_serial, size, num_threads, opt_lvl) ← parse_file_name file;
  first_row ← create_row (subdir +:+ "/" +:+ file) is_serial size
                 num_threads opt_lvl means;
  Ok {| rows := rows st; first_row := Some first_row;
        time_serial := time_serial st |}.

Definition curr_files (files : list string) (subdir : string) : list string :=
  sorted (List.filter (fun f => bool_decide (is_Some (find (subdir +:+ "/") f))) files).

(** The rows of the table of any other directory, up to the call of the
    writer. *)
Definition scenario_step (files : list string) (means : gmap string file_mean)
    (st : locals) (subdir : string) : result locals :=
  first_row' ← of_option UnboundLocalError (first_row st);
  let st := {| rows := rows st ++ [first_row']; first_row := first_row st;
               time_serial := time_serial st |} in
  for_fold (file_step means) st (curr_files files subdir).

(** [PrettyTable.add_rows] rejects a row that has not one value per field. *)
Definition write_table (fields : list string) (rows : list row) : result unit :=
  if forallb (fun r : row => (length r =? length fields)%nat) rows
  then Ok tt else Raise RowArityError.

(** The loop over the sorted subdirectories: the tables handed to the writer,
    in order, and how the loop ended. *)
Fixpoint make_table_loop (w : world) (files : list string)
    (means : gmap string file_mean) (subdirs : list string) (st : locals)
    : list table * result unit :=
  match subdirs with
  | [] => ([], Ok tt)
  | subdir :: subdirs' =>
      if endswith subdir "opt_0" then
        match default_step w means st subdir with
        | Raise e => ([], Raise e)
        | Ok st' => make_table_loop w files means subdirs' st'
        end
      else
        match scenario_step files means st subdir with
        | Raise e => ([], Raise e)
        | Ok st' =>
            let t := {| table_dir := subdir; table_fields := fields;
                        table_rows := rows st' |} in
            match write_table fields (rows st') with
            | Raise e => ([t], Raise e)
            | Ok _ =>
                let st'' := {| rows := []; first_row := first_row st';
                               time_serial := time_serial st' |} in
                let '(ts, r) := make_table_loop w files means subdirs' st'' in
                (t :: ts, r)
            end
        end
  end.

Definition subdirs_of (w : world) (root_dir : string) : list string :=
  sorted (map (fun d => path_join root_dir d.1)
              (List.filter (fun d : string * bool => d.2) (scandir w root_dir))).

Definition make_table (w : world) (root_dir : string) (files : list string)
    (means : gmap string file_mean) : list table * result unit :=
  make_table_loop w files means (subdirs_of w root_dir) init_locals.

(** ** [main] *)

Inductive outcome : Type :=
  | Completed
  | Exited (code : Z)
  | Uncaught (e : exn).

Record run : Type := {
  stdout : list string;
  tables : list table;
  status : outcome
}.

Definition qualifying (file : string) : bool :=
  endswith file ".csv" && bool_decide (find "table" file = None).

Definition found_files (w : world) (directory : string) : list string :=
  sorted (flat_map (fun '(root, files_found) =>
                      map (path_join root) (List.filter qualifying files_found))
                   (walk w directory)).

Definition usage : list string :=
  ["usage: python3 ./evaluate.py dir";
   "'dir' is the directory containing the output produced by measures.sh"].

Section Main.

Variable np_sum : list float -> float.

Definition main (w : world) : run :=
  if (length (argv w) <? 2)%nat then
    {| stdout := usage; tables := []; status := Exited 1 |}
  else
    let directory := nth 1 (argv w) "" in
    let files := found_files w directory in
    if (length files =? 0)%nat then
      {| stdout := ["No output files found. Exiting the script."];
         tables := []; status := Exited 1 |}
    else
      match calculate_means np_sum (read_csv w) files with
      | Raise e =>
          {| stdout := ["Calculating means..."]; tables := [];
             status := Uncaught e |}
      | Ok means =>
          let '(ts, r) := make_table w directory files means in
          {| stdout := ["Calculating means..."; "Creating tables and plots..."];
             tables := ts;
             status := match r with Ok _ => Completed | Raise e => Uncaught e end |}
      end.

End Main.

(** ** Views used by the statements *)

(** The three means of one file, in the order [calculate_means] inserts them. *)
Definition summary (time_init time_sort time_elapsed : float) : file_mean :=
  [("time_init", time_init); ("time_sort", time_sort);
   ("time_elapsed", time_elapsed)].

(** What [calculate_means] stores for a file whose content is [content]. *)
Definition summarises (np_sum : list float -> float) (content : dataframe)
    (fm : file_mean) : Prop :=
  ∃ init_data sort_data time_init time_sort time_elapsed,
    df_col content "time_init" = Ok init_data ∧
    column_mean np_sum init_data = Ok time_init ∧
    df_col content "time_sort" = Ok sort_data ∧
    column_mean np_sum sort_data = Ok time_sort ∧
    my_round (F64.add time_init time_sort) = Ok time_elapsed ∧
    fm = summary time_init time_sort time_elapsed.

(** Every stored entry is a [summary]. *)
Definition means_wf (means : gmap string file_mean) : Prop :=
  ∀ file fm, means !! file = Some fm → ∃ ti ts te, fm = summary ti ts te.

(** ** The robust mean as the specification words it

    Fit a normal distribution to the full sample; retain only the samples
    strictly inside the open interval (μ₀ − σ₀, μ₀ + σ₀); the result is 0.0 if
    none is retained, and the fitted mean of the retained samples otherwise;
    round the result to 5 decimal digits. *)

Definition strictly_inside (lo hi x : float) : bool :=
  F64.ltb lo x && F64.ltb x hi.

Definition robust_mean_spec (np_sum : list float -> float)
    (sample : list float) : result float :=
  '(mu0, sigma0) ← norm_fit np_sum sample;
  let retained :=
    List.filter (strictly_inside (F64.sub mu0 sigma0) (F64.add mu0 sigma0)) sample in
  estimate ← match retained with
              | [] => Ok F64.zero
              | _ :: _ => '(mu1, _) ← norm_fit np_sum retained; Ok mu1
              end;
  my_round estimate.

(** [c] is the integer nearest to [num / den], the even one of two equally
    near. *)
Definition nearest_half_even (num den c : Z) : Prop :=
  Z.abs (2 * num - 2 * c * den) ≤ den ∧
  (Z.abs (2 * num - 2 * c * den) = den → Z.even c = true).

(** The float of the decimal [c * 10^-5] with sign [s]. *)
Definition float_of_decimal5 (s : bool) (c : Z) : float :=
  match c with
  | Zpos p => F64.of_ratio s p 100000
  | _ => S754_zero s
  end.

(** ** Rows of a table, as the statements read them *)

Definition row_type (r : row) : option string :=
  match r !! 0%nat with Some (VStr s) => Some s | _ => None end.

Definition row_threads (r : row) : option Z :=
  match r !! 2%nat with Some (VInt n) => Some n | _ => None end.

Definition row_opt_lvl (r : row) : option Z :=
  match r !! 3%nat with Some (VInt n) => Some n | _ => None end.

Definition row_elapsed (r : row) : option float :=
  match r !! 6%nat with Some (VFloat x) => Some x | _ => None end.

Definition row_speedup (r : row) : option value := r !! 7%nat.

Definition row_efficiency (r : row) : option value := r !! 8%nat.

(** The row [make_table] appends for [file] when the serial time in force is
    [baseline] ([None]: not assigned yet), and the serial time in force
    afterwards. *)
Inductive file_row (means : gmap string file_mean) (file : string)
    : option float → row → option float → Prop :=
  | serial_row baseline size opt_lvl ti ts te :
      parse_file_name file = Ok (true, size, 0, opt_lvl) →
      means !! file = Some (summary ti ts te) →
      file_row means file baseline
        [VStr (measure_type true opt_lvl); VInt size; VInt 0; VInt opt_lvl;
         VFloat ti; VFloat ts; VFloat te; VInt 1; VInt 1]
        (Some te)
  | parallel_row time_serial size num_threads opt_lvl ti ts te
                 speedup threads efficiency :
      parse_file_name file = Ok (false, size, num_threads, opt_lvl) →
      num_threads ≠ 0 →
      means !! file = Some (summary ti ts te) →
      py_truediv time_serial te ≫= my_round = Ok speedup →
      py_float_of_int num_threads = Ok threads →
      py_truediv speedup threads ≫= my_round = Ok efficiency →
      file_row means file (Some time_serial)
        [VStr "Parallel"; VInt size; VInt num_threads; VInt opt_lvl;
         VFloat ti; VFloat ts; VFloat te; VFloat speedup; VFloat efficiency]
        (Some time_serial).

(** The rows appended for a sequence of files. *)
Inductive file_rows (means : gmap string file_mean)
    : option float → list string → list row → option float → Prop :=
  | file_rows_nil baseline : file_rows means baseline [] [] baseline
  | file_rows_cons baseline file r baseline1 files rs baseline2 :
      file_row means file baseline r baseline1 →
      file_rows means baseline1 files rs baseline2 →
      file_rows means baseline (file :: files) (r :: rs) baseline2.

(** A row with the nine entries of the header. *)
Definition full_row (means : gmap string file_mean) (r : row) : Prop :=
  ∃ file ty size num_threads opt_lvl ti ts te speedup efficiency,
    means !! file = Some (summary ti ts te) ∧
    r = [VStr ty; VInt size; VInt num_threads; VInt opt_lvl;
         VFloat ti; VFloat ts; VFloat te; speedup; efficiency] ∧
    ((speedup = VInt 1 ∧ efficiency = VInt 1) ∨
     (∃ s e, speedup = VFloat s ∧ efficiency = VFloat e)).

(** The row [create_row] leaves without speedup and efficiency. *)
Definition short_parallel_row (means : gmap string file_mean) (r : row) : Prop :=
  ∃ file size num_threads opt_lvl ti ts te,
    means !! file = Some (summary ti ts te) ∧ num_threads ≠ 0 ∧
    r = [VStr "Parallel"; VInt size; VInt num_threads; VInt opt_lvl;
         VFloat ti; VFloat ts; VFloat te].

(** The default case cached at a directory that ends in [opt_0]. *)
Definition default_row (w : world) (means : gmap string file_mean)
    (subdir : string) : result row :=
  file ← of_option IndexError (head (listdir w subdir));
  '(is_serial, size, num_threads, opt_lvl) ← parse_file_name file;
  create_row (subdir +:+ "/" +:+ file) is_serial size num_threads opt_lvl means.

Definition is_default_dir (subdir : string) : bool := endswith subdir "opt_0".

(** The directories that get a table. *)
Definition scenarios (subdirs : list string) : list string :=
  List.filter (fun d => negb (is_default_dir d)) subdirs.

(** What a table handed to the writer looks like: the default case first,
    then one row per file of the directory, in sorted order. *)
Definition table_ok (files : list string) (means : gmap string file_mean)
    (t : table) : Prop :=
  table_fields t = fields ∧
  ∃ fr rs baseline baseline',
    table_rows t = fr :: rs ∧
    (full_row means fr ∨ short_parallel_row means fr) ∧
    file_rows means baseline (curr_files files (table_dir t)) rs baseline'.

(** The cached default case, when assigned, is a row of [create_row]. *)
Definition cached_ok (means : gmap string file_mean) (st : locals) : Prop :=
  ∀ fr, first_row st = Some fr → full_row means fr ∨ short_parallel_row means fr.

(** The character [c] occurs in [s]. *)
Definition occurs (c : ascii) (s : string) : Prop :=
  In c (list_ascii_of_string s).

(** The three fields of a file name: the marker and the character that ends
    the field. *)
Definition name_fields : list (ascii * ascii) :=
  [("S"%char, "_"%char); ("T"%char, "_"%char); ("O"%char, "."%char)].

(** ** Sample runs *)

(** Three samples around [v]; their robust mean is [v]. *)
Definition samples (v : Z) : list float :=
  [F64.of_Z (v - 1); F64.of_Z v; F64.of_Z (v + 1)].

(** The content of a measurement file whose means are [time_init] and
    [time_sort]. *)
Definition csv (time_init time_sort : Z) : dataframe :=
  [("time_init", samples time_init); ("time_sort", samples time_sort)].

(** A root directory: its subdirectories, each with its files and their
    content. *)
Definition tree : Type := list (string * list (string * dataframe)).

Definition tree_files (root : string) (t : tree) : list (string * dataframe) :=
  flat_map (fun d => map (fun f => (path_join (path_join root d.1) f.1, f.2)) d.2) t.

Definition tree_world (args : list string) (root : string) (t : tree) : world :=
  {| argv := args;
     walk top := (top, []) :: map (fun d => (path_join top d.1, map fst d.2)) t;
     scandir dir := map (fun d => (d.1, true)) t;
     listdir dir :=
       match List.find (fun d => String.eqb (path_join root d.1) dir) t with
       | Some d => map fst d.2
       | None => []
       end;
     read_csv file :=
       match List.find (fun f => String.eqb f.1 file) (tree_files root t) with
       | Some f => Ok f.2
       | None => Raise OSError
       end |}.

Definition run_on (root : string) (t : tree) : run :=
  main seq_sum (tree_world ["evaluate.py"; root] root t).

(** The example of the specification: a default file, a serial file with an
    elapsed time of 10.0 and a parallel file of 4 threads with 3.0. *)
Definition spec_example : tree :=
  [("opt_0", [("S1000_T0_O0.csv", csv 8 12)]);
   ("opt_1", [("S1000_T0_O1.csv", csv 4 6); ("S1000_T4_O1.csv", csv 1 2)])].

(** Two serial files in one directory: 0 threads written [00] and [0]. *)
Definition two_serial : tree :=
  [("opt_0", [("S10_T0_O0.csv", csv 8 12)]);
   ("opt_1", [("S10_T00_O1.csv", csv 4 6); ("S10_T0_O1.csv", csv 8 12);
              ("S10_T4_O1.csv", csv 1 3)])].

(** A directory with a parallel file only, before a complete one. *)
Definition parallel_first : tree :=
  [("opt_0", [("S10_T0_O0.csv", csv 8 12)]);
   ("opt_1", [("S10_T4_O1.csv", csv 1 3)]);
   ("opt_2", [("S10_T0_O2.csv", csv 4 6); ("S10_T4_O2.csv", csv 1 2)])].

(** A directory with a parallel file only, after a complete one. *)
Definition parallel_later : tree :=
  [("opt_0", [("S10_T0_O0.csv", csv 8 12)]);
   ("opt_1", [("S10_T0_O1.csv", csv 4 6); ("S10_T4_O1.csv", csv 1 3)]);
   ("opt_2", [("S10_T4_O2.csv", csv 2 3)])].

(** A file with a malformed name among well-named ones. *)
Definition malformed : tree :=
  [("opt_0", [("S10_T0_O0.csv", csv 8 12)]);
   ("opt_1", [("S10_T0_O1.csv", csv 4 6); ("foo.csv", csv 1 3)]);
   ("opt_2", [("S10_T0_O2.csv", csv 4 6); ("S10_T4_O2.csv", csv 1 2)])].

(** A default directory whose file names 4 threads. *)
Definition parallel_default : tree :=
  [("opt_0", [("S10_T4_O0.csv", csv 8 12)]);
   ("opt_1", [("S10_T0_O1.csv", csv 4 6); ("S10_T4_O1.csv", csv 1 3)])].

(** A root without measurement files. *)
Definition no_measures : tree :=
  [("opt_1", [("table.csv", []); ("plot_speedup.jpg", [])])].

(** The speedup and efficiency of the Parallel row [p] are those computed
    from the elapsed time of the row [s]:
    speedup = my_round (elapsed of s / elapsed of p),
    efficiency = my_round (speedup / threads of p). *)
Definition derived_from (s p : row) : Prop :=
  ∃ time_serial time_parallel num_threads threads speedup efficiency,
    row_elapsed s = Some time_serial ∧
    row_elapsed p = Some time_parallel ∧
    row_threads p = Some num_threads ∧
    py_truediv time_serial time_parallel ≫= my_round = Ok speedup ∧
    row_speedup p = Some (VFloat speedup) ∧
    py_float_of_int num_threads = Ok threads ∧
    py_truediv speedup threads ≫= my_round = Ok efficiency ∧
    row_efficiency p = Some (VFloat efficiency).

Definition mk_row (ty : string) (size num_threads opt_lvl : Z)
    (time_init time_sort time_elapsed : float) (tail : list value) : row :=
  [VStr ty; VInt size; VInt num_threads; VInt opt_lvl; VFloat time_init;
   VFloat time_sort; VFloat time_elapsed] ++ tail.

Definition mk_table (dir : string) (table_rows : list row) : table :=
  {| table_dir := dir; table_fields := fields; table_rows := table_rows |}.

(** The means [calculate_means] gives on a sample tree. *)
Definition means_of (root : string) (t : tree) : gmap string file_mean :=
  let w := tree_world ["evaluate.py"; root] root t in
  match calculate_means seq_sum (read_csv w) (found_files w root) with
  | Ok means => means
  | Raise _ => ∅
  end.

Definition spec_example_rows : list row :=
  [mk_row "Default" 1000 0 0 (F64.of_Z 8) (F64.of_Z 12) (F64.of_Z 20)
          [VInt 1; VInt 1];
   mk_row "Serial" 1000 0 1 (F64.of_Z 4) (F64.of_Z 6) (F64.of_Z 10)
          [VInt 1; VInt 1];
   mk_row "Parallel" 1000 4 1 (F64.of_Z 1) (F64.of_Z 2) (F64.of_Z 3)
          [VFloat (F64.of_ratio false 333333 100000);
           VFloat (F64.of_ratio false 83333 100000)]].

Definition two_serial_rows : list row :=
  [mk_row "Default" 10 0 0 (F64.of_Z 8) (F64.of_Z 12) (F64.of_Z 20)
          [VInt 1; VInt 1];
   mk_row "Serial" 10 0 1 (F64.of_Z 4) (F64.of_Z 6) (F64.of_Z 10)
          [VInt 1; VInt 1];
   mk_row "Serial" 10 0 1 (F64.of_Z 8) (F64.of_Z 12) (F64.of_Z 20)
          [VInt 1; VInt 1];
   mk_row "Parallel" 10 4 1 (F64.of_Z 1) (F64.of_Z 3) (F64.of_Z 4)
          [VFloat (F64.of_Z 5); VFloat (F64.of_ratio false 5 4)]].

Definition parallel_later_rows : list row :=
  [mk_row "Default" 10 0 0 (F64.of_Z 8) (F64.of_Z 12) (F64.of_Z 20)
          [VInt 1; VInt 1];
   mk_row "Parallel" 10 4 2 (F64.of_Z 2) (F64.of_Z 3) (F64.of_Z 5)
          [VFloat (F64.of_Z 2); VFloat (F64.of_ratio false 1 2)]].

Definition parallel_default_rows : list row :=
  [mk_row "Parallel" 10 4 0 (F64.of_Z 8) (F64.of_Z 12) (F64.of_Z 20) [];
   mk_row "Serial" 10 0 1 (F64.of_Z 4) (F64.of_Z 6) (F64.of_Z 10)
          [VInt 1; VInt 1];
   mk_row "Parallel" 10 4 1 (F64.of_Z 1) (F64.of_Z 3) (F64.of_Z 4)
          [VFloat (F64.of_ratio false 5 2); VFloat (F64.of_ratio false 5 8)]].


(** ** [get_axes_data] of [plots.py] *)

(** [l.index(name)]; [None] stands for the [ValueError] of an absent name. *)
Fixpoint list_index (name : string) (l : list string) : option nat :=
  match l with
  | [] => None
  | x :: l' => if String.eqb x name then Some O else S <$> list_index name l'
  end.

(** [v == s] for a string [s]: an int or a float is no string. *)
Definition value_is (v : value) (s : string) : bool :=
  match v with
  | VStr t => String.eqb t s
  | _ => false
  end.

(** [row[fields.index(name)]]. *)
Definition row_field (fields : list string) (r : row) (name : string) : result value :=
  i ← of_option ValueError (list_index name fields);
  of_option IndexError (r !! i).

(** The body of the loop over the rows; [xy] holds the two lists. *)
Definition axes_step (fields : list string) (y_data : string)
    (xy : list value * list value) (r : row) : result (list value * list value) :=
  ty ← row_field fields r "Type";
  if value_is ty "Parallel" then
    threads ← row_field fields r "Threads";
    let x := xy.1 ++ [threads] in
    v ← row_field fields r y_data;
    Ok (x, xy.2 ++ [v])
  else Ok xy.

Definition get_axes_data (fields : list string) (rows : list row)
    (y_data : string) : result (list value * list value) :=
  for_fold (axes_step fields y_data) ([VInt 0], [VInt 0]) rows.

(** The Parallel rows of a table, as [get_axes_data] selects them. *)
Definition parallel_rows (rows : list row) : list row :=
  List.filter (fun r => match r !! 0%nat with
                        | Some ty => value_is ty "Parallel"
                        | None => false
                        end) rows.

(** ** The naming convention [Sxxxx_Tyy_Oz.csv] *)

Definition digit_char (d : nat) : ascii := ascii_of_nat (48 + d).

(** The decimal numeral with the digits [ds], most significant first. *)
Fixpoint numeral (ds : list nat) : string :=
  match ds with
  | [] => EmptyString
  | d :: ds' => String (digit_char d) (numeral ds')
  end.

(** The number a numeral denotes. *)
Definition numeral_value (ds : list nat) : Z :=
  fold_left (fun acc d => 10 * acc + Z.of_nat d) ds 0.

Definition is_numeral (ds : list nat) : Prop :=
  ds ≠ [] ∧ Forall (fun d => (d < 10)%nat) ds.

(** The name of the measurement file of a size, a number of threads and an
    optimization level, each given by its digits. *)
Definition measure_name (size threads opt : list nat) : string :=
  "S" +:+ numeral size +:+ "_T" +:+ numeral threads +:+ "_O" +:+ numeral opt
      +:+ ".csv".

(** A file of one data row. *)
Definition single_row (time_init time_sort : float) : dataframe :=
  [("time_init", [time_init]); ("time_sort", [time_sort])].

(** A measurement file without the column [time_sort]. *)
Definition missing_column : tree :=
  [("opt_0", [("S10_T0_O0.csv", csv 8 12)]);
   ("opt_1", [("S10_T0_O1.csv", [("time_init", samples 4)])])].

(** A root without a default directory. *)
Definition no_default : tree :=
  [("opt_1", [("S10_T0_O1.csv", csv 4 6); ("S10_T4_O1.csv", csv 1 3)])].

(** A parallel run measured once. *)
Definition single_trial : tree :=
  [("opt_0", [("S10_T0_O0.csv", csv 8 12)]);
   ("opt_1", [("S10_T0_O1.csv", csv 4 6);
              ("S10_T4_O1.csv", single_row (F64.of_Z 1) (F64.of_Z 3))])].

(** The entry [i] of a row. *)
Definition entry (i : nat) (r : row) : value := nth i r (VInt 0).

(** A directory without any measurement file. *)
Definition empty_scenario : tree :=
  [("opt_0", [("S10_T0_O0.csv", csv 8 12)]); ("opt_1", [])].
(** * Properties *)

(** ** The model on concrete values *)

Example my_round_third :
  my_round (F64.div (F64.of_Z 10) (F64.of_Z 3)) = Ok (F64.of_ratio false 333333 100000).
Proof. vm_compute. reflexivity. Qed.

Example of_ratio_333333 :
  F64.of_ratio false 333333 100000 = S754_finite false 0x1aaaa8eb463498 (-51).
Proof. vm_compute. reflexivity. Qed.

Example my_round_tie :
  my_round (F64.of_ratio false 1 64) = Ok (F64.of_ratio false 1562 100000).
Proof. vm_compute. reflexivity. Qed.

Example my_round_small_negative :
  my_round (F64.of_ratio true 1 1000000000) = Ok (S754_zero true).
Proof. vm_compute. reflexivity. Qed.

Example my_round_1e23 :
  my_round (F64.of_Z (10 ^ 23)) = Ok (F64.of_Z (10 ^ 23)) /\
  my_round (F64.of_Z (11 * 10 ^ 22)) = Raise InvalidOperation.
Proof. vm_compute. split; reflexivity. Qed.

Example parse_file_name_sample :
  parse_file_name "out/opt_1/S1000_T4_O1.csv" = Ok (false, 1000, 4, 1) ∧
  parse_file_name "S10_T00_O1.csv" = Ok (true, 10, 0, 1) ∧
  parse_file_name "foo.csv" = Raise ValueError.
Proof. vm_compute. repeat split; reflexivity. Qed.

Example py_int_sample :
  map py_int [" 10 "; "+10"; "-1"; "1_0"; "00"] =
    [Some 10; Some 10; Some (-1); Some 10; Some 0] ∧
  map py_int ["_10"; "1__0"; "10_"; ""; "0x10"; "- 1"; "+"; "1.0"] =
    [None; None; None; None; None; None; None; None].
Proof. vm_compute. split; reflexivity. Qed.

Example sorted_sample :
  sorted ["S10_T4_O1.csv"; "foo.csv"; "S10_T0_O1.csv"; "S10_T00_O1.csv";
          "S10_T16_O1.csv"] =
    ["S10_T00_O1.csv"; "S10_T0_O1.csv"; "S10_T16_O1.csv"; "S10_T4_O1.csv";
     "foo.csv"].
Proof. vm_compute. reflexivity. Qed.

Example path_sample :
  basename "a/b/c.csv" = "c.csv" ∧ basename "c.csv" = "c.csv" ∧
  path_join "a" "b" = "a/b" ∧ path_join "a/" "b" = "a/b" ∧
  endswith "size10/opt_0" "opt_0" = true ∧ find "table" "my_table.csv" = Some 3%nat.
Proof. vm_compute. repeat split; reflexivity. Qed.

Example column_mean_sample :
  column_mean seq_sum (samples 6) = Ok (F64.of_Z 6) ∧
  column_mean seq_sum [F64.of_Z 5; F64.of_Z 6; F64.of_Z 7; F64.of_Z 100] =
    Ok (F64.of_Z 6).
Proof. vm_compute. split; reflexivity. Qed.


(** ** [sorted] *)

Lemma insert_sorted_perm x l : Permutation (x :: l) (insert_sorted x l).
Proof.
  induction l as [|y l IH]; cbn; [done|].
  destruct (String.leb x y); [done|].
  rewrite perm_swap. by constructor.
Qed.

Lemma sorted_perm l : Permutation l (sorted l).
Proof.
  induction l as [|x l IH]; cbn; [done|].
  rewrite <- insert_sorted_perm. by constructor.
Qed.

Lemma insert_sorted_ascending x l :
  Sorted (λ a b, String.leb a b = true) l →
  Sorted (λ a b, String.leb a b = true) (insert_sorted x l).
Proof.
  induction 1 as [|y l Hl IH Hy]; cbn; [by repeat constructor|].
  destruct (String.leb x y) eqn:Hxy; [by repeat constructor|].
  constructor; [done|].
  assert (Hyx : String.leb y x = true).
  { destruct (String.leb_total x y) as [H|H]; congruence. }
  destruct Hy as [|z l Hyz]; cbn; [by constructor|].
  destruct (String.leb x z); by constructor.
Qed.

Lemma sorted_ascending l : Sorted (λ a b, String.leb a b = true) (sorted l).
Proof.
  induction l as [|x l IH]; cbn; [constructor|by apply insert_sorted_ascending].
Qed.

(** ** The result monad and the loops *)

Lemma bind_Ok_inv {A B} (m : result A) (k : A → result B) (b : B) :
  m ≫= k = Ok b → ∃ a, m = Ok a ∧ k a = Ok b.
Proof. destruct m as [a|e]; cbn; [eauto | discriminate]. Qed.

Lemma fmap_Ok_inv {A B} (f : A → B) (m : result A) (b : B) :
  f <$> m = Ok b → ∃ a, m = Ok a ∧ b = f a.
Proof. destruct m as [a|e]; cbn; [intros [= <-]; eauto | discriminate]. Qed.

Lemma of_option_Ok_inv {A} (e : exn) (o : option A) (a : A) :
  of_option e o = Ok a → o = Some a.
Proof. destruct o; cbn; congruence. Qed.

Ltac bind_inv H :=
  let a := fresh "a" in
  let Ha := fresh "H" a in
  apply bind_Ok_inv in H as (a & Ha & H).

Lemma for_fold_app {A S} (f : S → A → result S) (s : S) (l1 l2 : list A) :
  for_fold f s (l1 ++ l2) = for_fold f s l1 ≫= λ s', for_fold f s' l2.
Proof.
  revert s. induction l1 as [|a l1 IH]; intros s; cbn; [done|].
  destruct (f s a) as [s'|e]; cbn; [apply IH | done].
Qed.

(** A loop preserves what every iteration preserves. *)
Lemma for_fold_invariant {A S} (P : S → Prop) (f : S → A → result S) (l : list A) :
  (∀ s a s', In a l → P s → f s a = Ok s' → P s') →
  ∀ s s', P s → for_fold f s l = Ok s' → P s'.
Proof.
  induction l as [|a l IH]; intros Hstep s s' Hs H; cbn in H.
  - by injection H as <-.
  - bind_inv H. eapply IH; [| |exact H].
    + intros; eapply Hstep; eauto; by right.
    + eapply Hstep; eauto; by left.
Qed.

(** A loop raises as soon as it holds an element whose iteration raises. *)
Lemma for_fold_raises {A S} (f : S → A → result S) (l : list A) (a : A) :
  In a l → (∀ s, ∃ e, f s a = Raise e) →
  ∀ s, ∃ e, for_fold f s l = Raise e.
Proof.
  induction l as [|b l IH]; intros Hin Hraise s; [destruct Hin|].
  cbn. destruct Hin as [->|Hin].
  - destruct (Hraise s) as [e ->]. by exists e.
  - destruct (f s b) as [s'|e]; cbn; [by apply IH | by exists e].
Qed.

(** ** [calculate_means] *)

Ltac invert_ok :=
  repeat match goal with
    | H : _ ≫= _ = Ok _ |- _ => apply bind_Ok_inv in H as (? & ? & ?)
    | H : _ <$> _ = Ok _ |- _ => apply fmap_Ok_inv in H as (? & ? & ?)
    | H : of_option _ _ = Ok _ |- _ => apply of_option_Ok_inv in H
    | H : Raise _ = Ok _ |- _ => discriminate H
    | H : Ok _ = Ok _ |- _ => injection H as H
    end.
Lemma file_means_summarises np_sum content fm :
  file_means np_sum content = Ok fm → summarises np_sum content fm.
Proof.
  unfold file_means, columns. cbn [for_fold]. intros H.
  invert_ok. subst. cbn in *. invert_ok. subst.
  unfold summarises. eexists _, _, _, _, _. repeat split; eauto.
Qed.

Lemma calculate_means_entries np_sum read_csv files (means : gmap string file_mean) :
  calculate_means np_sum read_csv files = Ok means →
  ∀ file fm, means !! file = Some fm →
    In file files ∧ ∃ content, read_csv file = Ok content ∧ summarises np_sum content fm.
Proof.
  unfold calculate_means.
  apply (for_fold_invariant
    (λ m : gmap string file_mean, ∀ file fm, m !! file = Some fm →
       In file files ∧ ∃ content, read_csv file = Ok content ∧ summarises np_sum content fm)).
  - intros m f m' Hin Hm Hstep file fm. invert_ok. subst m'.
    destruct (decide (f = file)) as [->|Hne].
    + rewrite lookup_insert_eq. intros [= <-]. split; [done|].
      eauto using file_means_summarises.
    + rewrite lookup_insert_ne by done. apply Hm.
  - intros file fm. by rewrite lookup_empty.
Qed.

Lemma calculate_means_wf np_sum read_csv files (means : gmap string file_mean) :
  calculate_means np_sum read_csv files = Ok means → means_wf means.
Proof.
  intros H file fm Hfm.
  destruct (calculate_means_entries _ _ _ _ H _ _ Hfm)
    as (_ & content & _ & (? & ? & ti & ts & te & _ & _ & _ & _ & _ & ->)).
  by exists ti, ts, te.
Qed.

(** A column of elapsed times in the file plays no part. *)
Example elapsed_column_ignored :
  file_means seq_sum (("time_elapsed", samples 100) :: csv 1 2) =
    Ok (summary (F64.of_Z 1) (F64.of_Z 2) (F64.of_Z 3)).
Proof. vm_compute. reflexivity. Qed.

(** C4. In the summary [calculate_means] stores for a file, [time_elapsed] is
    [my_round] of the sum of the stored [time_init] and [time_sort], which are
    the robust means of the two columns of that file, each estimated on its
    own column; no estimate of an elapsed-time column enters it. *)
Theorem time_elapsed_is_rounded_sum np_sum read_csv files
    (means : gmap string file_mean) file fm :
  calculate_means np_sum read_csv files = Ok means →
  means !! file = Some fm →
  ∃ content init_data sort_data time_init time_sort time_elapsed,
    read_csv file = Ok content ∧
    df_col content "time_init" = Ok init_data ∧
    column_mean np_sum init_data = Ok time_init ∧
    df_col content "time_sort" = Ok sort_data ∧
    column_mean np_sum sort_data = Ok time_sort ∧
    dict_get fm "time_init" = Ok time_init ∧
    dict_get fm "time_sort" = Ok time_sort ∧
    dict_get fm "time_elapsed" = Ok time_elapsed ∧
    my_round (F64.add time_init time_sort) = Ok time_elapsed.
Proof.
  intros Hmeans Hfm.
  destruct (calculate_means_entries _ _ _ _ Hmeans _ _ Hfm)
    as (_ & content & Hread & (d1 & d2 & ti & ts & te & ? & ? & ? & ? & ? & ->)).
  by exists content, d1, d2, ti, ts, te.
Qed.

(** ** The robust mean *)

Lemma div_pow2_half_even_nearest n k :
  nearest_half_even n (Z.pow_pos 2 k) (div_pow2_half_even n k).
Proof.
  unfold nearest_half_even, div_pow2_half_even.
  assert (Hd : 0 < Z.pow_pos 2 k) by (rewrite Z.pow_pos_fold; lia).
  set (d := Z.pow_pos 2 k) in *.
  pose proof (Z.div_mod n d ltac:(lia)) as Hn.
  pose proof (Z.mod_pos_bound n d Hd) as Hr.
  set (q := n / d) in *. set (r := n mod d) in *.
  destruct (Z.compare_spec (2 * r) d) as [Heq|Hlt|Hgt].
  - destruct (Z.even q) eqn:Hq.
    + split; [nia | done].
    + split; [nia |]. intros _. rewrite Z.even_add, Hq. done.
  - split; [nia | nia].
  - split; [nia | nia].
Qed.

Lemma quantize5_nearest m e :
  nearest_half_even (Zpos m * 100000 * 2 ^ Z.max e 0) (2 ^ Z.max (- e) 0)
                    (quantize5 m e).
Proof.
  destruct e as [|p|p]; unfold quantize5.
  - change (nearest_half_even (Z.pos m * 100000 * 1) 1 (Z.pos m * 100000)).
    split; [lia | intros H; exfalso; lia].
  - rewrite Z.pow_pos_fold, (Z.max_l (Z.pos p)), (Z.max_r (- Z.pos p)) by lia.
    change (2 ^ 0) with 1.
    split; [lia | intros H; exfalso; lia].
  - rewrite (Z.max_r (Z.neg p)), (Z.max_l (- Z.neg p)) by lia.
    change (- Z.neg p) with (Z.pos p).
    change (2 ^ 0) with 1. rewrite Z.mul_1_r, <- Z.pow_pos_fold.
    apply div_pow2_half_even_nearest.
Qed.

Lemma my_round_zero : my_round F64.zero = Ok F64.zero.
Proof. reflexivity. Qed.

Lemma column_mean_refines np_sum sample :
  column_mean np_sum sample = robust_mean_spec np_sum sample.
Proof.
  unfold column_mean, robust_mean_spec.
  destruct (norm_fit np_sum sample) as [[mean std]|e]; cbn; [|done].
  change (inside mean std) with (strictly_inside (F64.sub mean std) (F64.add mean std)).
  destruct (List.filter _ sample) as [|x kept]; cbn; [done|].
  destruct (norm_fit np_sum (x :: kept)) as [[mu1 s1]|e]; cbn; done.
Qed.

(** C2. For every sequence of floats of one column (the non-empty ones among
    them), the mean [calculate_means] computes is the robust mean of the
    specification: a normal fit (μ₀, σ₀) of the full sample, the samples
    strictly inside (μ₀ − σ₀, μ₀ + σ₀) retained, 0.0 if none is retained and
    the mean of a fit of the retained samples otherwise, rounded to 5 decimal
    digits. The rounding is decimal: the result is the float of the decimal
    with 5 fractional digits nearest to the exact value, ties to even. *)
Theorem column_mean_is_robust_mean np_sum :
  (∀ sample, column_mean np_sum sample = robust_mean_spec np_sum sample) ∧
  (∀ s m e r, my_round (S754_finite s m e) = Ok r →
     ∃ c, nearest_half_even (Zpos m * 100000 * 2 ^ Z.max e 0)
                            (2 ^ Z.max (- e) 0) c ∧
          r = float_of_decimal5 s c).
Proof.
  split; [apply column_mean_refines|].
  intros s m e r H. exists (quantize5 m e). split; [apply quantize5_nearest|].
  unfold my_round in H.
  destruct (decimal_prec_limit <=? quantize5 m e); [discriminate|].
  unfold float_of_decimal5. destruct (quantize5 m e); congruence.
Qed.

(** ** A column with a single sample *)

Lemma div_eucl_exact (a b : Z) :
  0 < b → Z.div_eucl (a * b) b = (a, 0).
Proof.
  intros Hb.
  pose proof (Z.div_mul a b ltac:(lia)) as Hq.
  pose proof (Z.mod_mul a b ltac:(lia)) as Hr.
  unfold Z.div, Z.modulo in Hq, Hr.
  destruct (Z.div_eucl (a * b) b) as [q r]. by subst.
Qed.

Lemma div_eucl_shift53 (m : positive) :
  Z.div_eucl (Z.shiftl (Z.pos m) 53) 4503599627370496 = (Z.pos m~0, 0).
Proof.
  rewrite Z.shiftl_mul_pow2 by done.
  replace (Z.pos m * 2 ^ 53) with (Z.pos m~0 * 4503599627370496) by lia.
  by apply div_eucl_exact.
Qed.

Lemma div_eucl_shift52 (m : positive) :
  Z.div_eucl (Z.shiftl (Z.pos m) 52) 4503599627370496 = (Z.pos m, 0).
Proof.
  rewrite Z.shiftl_mul_pow2 by done.
  change (2 ^ 52) with 4503599627370496.
  by apply div_eucl_exact.
Qed.

Lemma valid_finite_cases s m e :
  F64.valid (S754_finite s m e) = true →
  (Zpos (digits2_pos m) = 53 ∧ -1073 ≤ e ≤ 971) ∨
  (Zpos (digits2_pos m) ≤ 53 ∧ e = -1074).
Proof.
  unfold F64.valid, valid_binary, bounded, canonical_mantissa, fexp, emin.
  change (3 - F64.emax - F64.prec) with (-1074).
  change (F64.emax - F64.prec) with 971. change F64.prec with 53.
  intros [Hc He]%andb_true_iff. apply Z.eqb_eq in Hc. apply Z.leb_le in He. lia.
Qed.

Lemma div_one x :
  F64.valid x = true → F64.is_finite x = true → F64.div x (F64.of_Z 1) = x.
Proof.
  change (F64.of_Z 1) with (S754_finite false 4503599627370496 (-52)).
  destruct x as [s|s| |s m e]; try discriminate; intros Hv _.
  - by destruct s.
  - unfold F64.div, SFdiv, SFdiv_core_binary. rewrite xorb_false_r.
    change (Zdigits2 (Z.pos m)) with (Z.pos (digits2_pos m)).
    change (Zdigits2 4503599627370496) with 53.
    unfold fexp, emin. change (3 - F64.emax - F64.prec) with (-1074).
    change F64.prec with 53.
    destruct (valid_finite_cases _ _ _ Hv) as [[Hd He]|[Hd He]].
    + rewrite Hd.
      replace (Z.min (Z.max (53 + e - (53 + -52) - 53) (-1074)) (e - -52)) with (e - 1) by lia.
      replace (e - -52 - (e - 1)) with 53 by lia.
      rewrite div_eucl_shift53.
      change (new_location 4503599627370496 0) with loc_Exact.
      unfold binary_round_aux, shr_fexp.
      change (Zdigits2 (Z.pos m~0)) with (Z.pos (Pos.succ (digits2_pos m))).
      rewrite Pos2Z.inj_succ, Hd. unfold fexp, emin.
      change (3 - F64.emax - 53) with (-1074).
      replace (Z.max (Z.succ 53 + (e - 1) - 53) (-1074) - (e - 1)) with 1 by lia.
      cbn [shr_record_of_loc shr].
      change (SpecFloat.iter_pos shr_1 1
                {| shr_m := Z.pos m~0; shr_r := false; shr_s := false |})
        with {| shr_m := Z.pos m; shr_r := false; shr_s := false |}.
      cbn [shr_m loc_of_shr_record round_nearest_even].
      change (Zdigits2 (Z.pos m)) with (Z.pos (digits2_pos m)). rewrite Hd.
      replace (e - 1 + 1) with e by lia.
      replace (Z.max (53 + e - 53) (-1074) - e) with 0 by lia.
      cbn [shr shr_m]. change (F64.emax - 53) with 971.
      by rewrite (proj2 (Z.leb_le e 971)) by lia.
    + subst e.
      replace (Z.min (Z.max (Z.pos (digits2_pos m) + -1074 - (53 + -52) - 53) (-1074))
                 (-1074 - -52)) with (-1074) by lia.
      change (-1074 - -52 - -1074) with 52. cbv iota.
      rewrite div_eucl_shift52.
      change (new_location 4503599627370496 0) with loc_Exact.
      unfold binary_round_aux, shr_fexp.
      change (Zdigits2 (Z.pos m)) with (Z.pos (digits2_pos m)).
      unfold fexp, emin. change (3 - F64.emax - 53) with (-1074).
      replace (Z.max (Z.pos (digits2_pos m) + -1074 - 53) (-1074) - -1074) with 0 by lia.
      cbn [shr_record_of_loc shr shr_m loc_of_shr_record round_nearest_even].
      change (Zdigits2 (Z.pos m)) with (Z.pos (digits2_pos m)).
      replace (Z.max (Z.pos (digits2_pos m) + -1074 - 53) (-1074) - -1074) with 0 by lia.
      reflexivity.
Qed.

Lemma sub_self x : F64.is_finite x = true → F64.sub x x = F64.zero.
Proof.
  destruct x as [s|s| |s m e]; try discriminate; intros _.
  - by destruct s.
  - unfold F64.sub, SFsub. by rewrite Z.sub_diag.
Qed.

Lemma sub_zero_r x : F64.is_finite x = true → F64.sub x F64.zero = x.
Proof. destruct x as [[]|s| |s m e]; try discriminate; done. Qed.

Lemma ltb_irrefl x : F64.ltb x x = false.
Proof.
  unfold F64.ltb, SFltb.
  destruct x as [s|s| |s m e]; cbn; try done; try by destruct s.
  rewrite Z.compare_refl, Pos.compare_cont_refl. by destruct s.
Qed.

Lemma norm_fit_single np_sum x :
  (∀ y, np_sum [y] = y) → F64.valid x = true → F64.is_finite x = true →
  norm_fit np_sum [x] = Ok (x, F64.zero).
Proof.
  intros Hsum Hv Hf. unfold norm_fit, np_mean. cbn [forallb map length].
  rewrite Hf, !Hsum. cbn [andb]. change (Z.of_nat 1) with 1.
  rewrite (div_one x Hv Hf), (sub_self x Hf). reflexivity.
Qed.

Lemma inside_single x : F64.is_finite x = true → inside x F64.zero x = false.
Proof. intros Hf. unfold inside. by rewrite (sub_zero_r x Hf), ltb_irrefl. Qed.

(** C6. The mean computed for a column that holds a single sample is exactly
    0.0: the fit of the one point has the point as mean and a standard
    deviation of 0, so the open interval around the mean excludes the point
    and no sample is retained. The sample is a finite binary64 number, and
    [np_sum] returns the element of a one-element array. *)
Theorem single_sample_mean_is_zero np_sum x :
  (∀ y, np_sum [y] = y) → F64.valid x = true → F64.is_finite x = true →
  norm_fit np_sum [x] = Ok (x, F64.zero) ∧
  List.filter (inside x F64.zero) [x] = [] ∧
  column_mean np_sum [x] = Ok F64.zero.
Proof.
  intros Hsum Hv Hf.
  pose proof (norm_fit_single np_sum x Hsum Hv Hf) as Hfit.
  pose proof (inside_single x Hf) as Hin.
  split; [done|]. split; [cbn; by rewrite Hin|].
  unfold column_mean. rewrite Hfit. cbn. by rewrite Hin.
Qed.

(** The single sample 5.0. *)
Lemma single_sample_5 :
  norm_fit seq_sum [F64.of_Z 5] = Ok (F64.of_Z 5, F64.zero) ∧
  List.filter (inside (F64.of_Z 5) F64.zero) [F64.of_Z 5] = [] ∧
  column_mean seq_sum [F64.of_Z 5] = Ok F64.zero.
Proof.
  apply (single_sample_mean_is_zero seq_sum (F64.of_Z 5));
    [intros y; reflexivity | reflexivity | reflexivity].
Defined.

(** ** [parse_file_name] and [create_row] *)

Lemma parse_file_name_is_serial file is_serial size num_threads opt_lvl :
  parse_file_name file = Ok (is_serial, size, num_threads, opt_lvl) →
  is_serial = bool_decide (num_threads = 0).
Proof.
  unfold parse_file_name. intros H. invert_ok. subst.
  destruct (Z.eqb_spec num_threads 0); [by rewrite bool_decide_true|by rewrite bool_decide_false].
Qed.

Lemma create_row_summary file is_serial size num_threads opt_lvl means ti ts te :
  means !! file = Some (summary ti ts te) →
  create_row file is_serial size num_threads opt_lvl means =
    Ok ([VStr (measure_type is_serial opt_lvl); VInt size; VInt num_threads;
         VInt opt_lvl; VFloat ti; VFloat ts; VFloat te] ++
        (if is_serial then [VInt 1; VInt 1] else [])).
Proof. intros H. unfold create_row. rewrite H. cbn. by destruct is_serial. Qed.

Lemma create_row_inv file is_serial size num_threads opt_lvl means r :
  means_wf means →
  create_row file is_serial size num_threads opt_lvl means = Ok r →
  ∃ ti ts te, means !! file = Some (summary ti ts te) ∧
    r = [VStr (measure_type is_serial opt_lvl); VInt size; VInt num_threads;
         VInt opt_lvl; VFloat ti; VFloat ts; VFloat te] ++
        (if is_serial then [VInt 1; VInt 1] else []).
Proof.
  intros Hwf H.
  destruct (means !! file) as [fm|] eqn:Hfm; [|unfold create_row in H; by rewrite Hfm in H].
  destruct (Hwf _ _ Hfm) as (ti & ts & te & ->).
  rewrite (create_row_summary _ _ _ _ _ _ _ _ _ Hfm) in H. injection H as <-.
  by exists ti, ts, te.
Qed.

(** ** The loop over the files of a directory *)

Lemma file_step_inv means st file st' :
  file_step means st file = Ok st' →
  ∃ is_serial size n ol r,
    parse_file_name file = Ok (is_serial, size, n, ol) ∧
    create_row file is_serial size n ol means = Ok r ∧
    if is_serial : bool then
      ∃ fm te, means !! file = Some fm ∧ dict_get fm "time_elapsed" = Ok te ∧
        st' = {| rows := rows st ++ [r]; first_row := first_row st;
                 time_serial := Some te |}
    else
      ∃ fm te b speedup threads efficiency,
        means !! file = Some fm ∧ dict_get fm "time_elapsed" = Ok te ∧
        time_serial st = Some b ∧
        py_truediv b te ≫= my_round = Ok speedup ∧
        py_float_of_int n = Ok threads ∧
        py_truediv speedup threads ≫= my_round = Ok efficiency ∧
        st' = {| rows := rows st ++ [r ++ [VFloat speedup; VFloat efficiency]];
                 first_row := first_row st; time_serial := Some b |}.
Proof.
  unfold file_step. intros H.
  apply bind_Ok_inv in H as ([[[is_serial size] n] ol] & Hparse & H).
  apply bind_Ok_inv in H as (r & Hrow & H).
  exists is_serial, size, n, ol, r. do 2 (split; [done|]).
  destruct is_serial.
  - apply bind_Ok_inv in H as (fm & Hfm%of_option_Ok_inv & H).
    apply bind_Ok_inv in H as (te & Hte & [= <-]). by exists fm, te.
  - apply bind_Ok_inv in H as (fm & Hfm%of_option_Ok_inv & H).
    apply bind_Ok_inv in H as (te & Hte & H).
    apply bind_Ok_inv in H as (b & Hb%of_option_Ok_inv & H).
    apply bind_Ok_inv in H as (sp & Hsp & H).
    apply bind_Ok_inv in H as (th & Hth & H).
    apply bind_Ok_inv in H as (eff & Heff & [= <-]).
    by exists fm, te, b, sp, th, eff.
Qed.

Lemma file_step_first_row means st file st' :
  file_step means st file = Ok st' → first_row st' = first_row st.
Proof.
  intros (is_serial & ? & ? & ? & ? & _ & _ & H)%file_step_inv.
  destruct is_serial.
  - by destruct H as (? & ? & _ & _ & ->).
  - by destruct H as (? & ? & ? & ? & ? & ? & _ & _ & _ & _ & _ & _ & ->).
Qed.

Lemma file_step_row means st file st' :
  means_wf means → file_step means st file = Ok st' →
  ∃ r, rows st' = rows st ++ [r] ∧
       file_row means file (time_serial st) r (time_serial st').
Proof.
  intros Hwf (is_serial & size & n & ol & r & Hparse & Hrow & H)%file_step_inv.
  pose proof (parse_file_name_is_serial _ _ _ _ _ Hparse) as His.
  destruct (create_row_inv _ _ _ _ _ _ _ Hwf Hrow) as (ti & ts & te & Hfm & ->).
  destruct is_serial.
  - destruct H as (fm & te' & Hfm' & Hte & ->).
    rewrite Hfm in Hfm'. injection Hfm' as <-. injection Hte as <-.
    symmetry in His. apply bool_decide_eq_true in His. subst n.
    eexists. split; [done|]. by constructor.
  - destruct H as (fm & te' & b & sp & th & eff & Hfm' & Hte & Hb & Hsp & Hth & Heff & ->).
    rewrite Hfm in Hfm'. injection Hfm' as <-. injection Hte as <-.
    symmetry in His. apply bool_decide_eq_false in His.
    eexists. split; [done|]. cbn [time_serial]. rewrite Hb.
    by econstructor.
Qed.

Lemma for_fold_file_step_first_row means files st st' :
  for_fold (file_step means) st files = Ok st' → first_row st' = first_row st.
Proof.
  revert st. induction files as [|f files IH]; intros st H; cbn in H.
  - by injection H as <-.
  - apply bind_Ok_inv in H as (st1 & H1 & H).
    rewrite (IH _ H). by eapply file_step_first_row.
Qed.

Lemma for_fold_file_step_rows means files st st' :
  means_wf means → for_fold (file_step means) st files = Ok st' →
  ∃ rs, rows st' = rows st ++ rs ∧
        file_rows means (time_serial st) files rs (time_serial st').
Proof.
  intros Hwf. revert st. induction files as [|f files IH]; intros st H; cbn in H.
  - injection H as <-. exists []. split; [by rewrite app_nil_r|constructor].
  - apply bind_Ok_inv in H as (st1 & H1 & H).
    destruct (file_step_row _ _ _ _ Hwf H1) as (r & Hr & Hrow).
    destruct (IH _ H) as (rs & Hrs & Hrows).
    exists (r :: rs). split; [|by econstructor].
    by rewrite Hrs, Hr, <- app_assoc.
Qed.

Lemma for_fold_file_step_grows means files st st' :
  for_fold (file_step means) st files = Ok st' →
  ∃ rs, rows st' = rows st ++ rs.
Proof.
  revert st. induction files as [|f files IH]; intros st H; cbn in H.
  - injection H as <-. exists []. by rewrite app_nil_r.
  - apply bind_Ok_inv in H as (st1 & H1 & H).
    destruct (IH _ H) as (rs & Hrs).
    apply file_step_inv in H1 as (is_serial & ? & ? & ? & r & _ & _ & H1).
    destruct is_serial.
    + destruct H1 as (? & ? & _ & _ & ->). exists (r :: rs).
      by rewrite Hrs; cbn; rewrite <- app_assoc.
    + destruct H1 as (? & ? & ? & sp & ? & eff & _ & _ & _ & _ & _ & _ & ->).
      exists ((r ++ [VFloat sp; VFloat eff]) :: rs).
      by rewrite Hrs; cbn; rewrite <- app_assoc.
Qed.

(** ** One directory *)

Lemma scenario_step_inv files means st subdir st' :
  scenario_step files means st subdir = Ok st' →
  ∃ fr rs, first_row st = Some fr ∧ first_row st' = Some fr ∧
           rows st' = rows st ++ fr :: rs.
Proof.
  unfold scenario_step. intros H.
  apply bind_Ok_inv in H as (fr & Hfr%of_option_Ok_inv & H).
  pose proof (for_fold_file_step_first_row _ _ _ _ H) as Hfirst.
  destruct (for_fold_file_step_grows _ _ _ _ H) as (rs & Hrs).
  cbn in Hfirst, Hrs. exists fr, rs. split; [done|]. split; [congruence|].
  by rewrite Hrs, <- app_assoc.
Qed.

Lemma scenario_step_rows files means st subdir st' :
  means_wf means → scenario_step files means st subdir = Ok st' →
  ∃ fr rs, first_row st = Some fr ∧ rows st' = rows st ++ fr :: rs ∧
           file_rows means (time_serial st) (curr_files files subdir) rs
                     (time_serial st').
Proof.
  unfold scenario_step. intros Hwf H.
  apply bind_Ok_inv in H as (fr & Hfr%of_option_Ok_inv & H).
  destruct (for_fold_file_step_rows _ _ _ _ Hwf H) as (rs & Hrs & Hrows).
  cbn in Hrs, Hrows. exists fr, rs. split; [done|]. split; [|done].
  by rewrite Hrs, <- app_assoc.
Qed.

Lemma default_step_inv w means st subdir st' :
  default_step w means st subdir = Ok st' →
  ∃ fr, default_row w means subdir = Ok fr ∧
        st' = {| rows := rows st; first_row := Some fr;
                 time_serial := time_serial st |}.
Proof.
  unfold default_step, default_row. intros H.
  apply bind_Ok_inv in H as (file & Hfile & H). rewrite Hfile. cbn.
  apply bind_Ok_inv in H as ([[[is_serial size] n] ol] & Hparse & H).
  rewrite Hparse. cbn.
  apply bind_Ok_inv in H as (fr & Hrow & [= <-]). by exists fr.
Qed.

Lemma default_row_shape w means subdir fr :
  means_wf means → default_row w means subdir = Ok fr →
  full_row means fr ∨ short_parallel_row means fr.
Proof.
  unfold default_row. intros Hwf H.
  apply bind_Ok_inv in H as (file & _ & H).
  apply bind_Ok_inv in H as ([[[is_serial size] n] ol] & Hparse & H).
  destruct (create_row_inv _ _ _ _ _ _ _ Hwf H) as (ti & ts & te & Hfm & ->).
  pose proof (parse_file_name_is_serial _ _ _ _ _ Hparse) as His.
  destruct is_serial.
  - left. eexists _, _, size, n, ol, ti, ts, te, _, _.
    split; [exact Hfm|]. split; [reflexivity|]. by left.
  - right. symmetry in His. apply bool_decide_eq_false in His.
    by eexists _, size, n, ol, ti, ts, te.
Qed.

(** ** The loop over the directories *)

Lemma make_table_loop_tables w files means subdirs st ts r :
  means_wf means → rows st = [] → cached_ok means st →
  make_table_loop w files means subdirs st = (ts, r) →
  Forall (table_ok files means) ts.
Proof.
  intros Hwf. revert st ts r.
  induction subdirs as [|d subdirs IH]; intros st ts r Hrows Hc H; cbn in H.
  - injection H as <- <-. constructor.
  - destruct (endswith d "opt_0").
    + destruct (default_step w means st d) as [st'|e] eqn:Hd.
      * apply default_step_inv in Hd as (fr & Hfr & ->).
        refine (IH _ _ _ _ _ H); [done|].
        intros fr' [= <-]. by eapply default_row_shape.
      * injection H as <- <-. constructor.
    + destruct (scenario_step files means st d) as [st'|e] eqn:Hs.
      * destruct (scenario_step_rows _ _ _ _ _ Hwf Hs) as (fr & rs & Hfr & Hrs & Hfiles).
        rewrite Hrows in Hrs. cbn in Hrs.
        destruct (scenario_step_inv _ _ _ _ _ Hs) as (fr' & _ & Hfr1 & Hfr2 & _).
        assert (Hok : table_ok files means
                        {| table_dir := d; table_fields := fields;
                           table_rows := rows st' |}).
        { split; [done|]. exists fr, rs, (time_serial st), (time_serial st').
          cbn. split; [done|]. split; [by apply Hc|done]. }
        destruct (write_table fields (rows st')).
        -- destruct (make_table_loop _ _ _ _ _) as [ts' r'] eqn:Hloop.
           injection H as <- <-. constructor; [done|].
           refine (IH _ _ _ _ _ Hloop); [done|].
           intros fr0. cbn. intros Hfr0. apply Hc. congruence.
        -- injection H as <- <-. constructor; [done|constructor].
      * injection H as <- <-. constructor.
Qed.

(** ** The tables of a run *)

Lemma main_tables np_sum w t :
  In t (tables (main np_sum w)) →
  ∃ means,
    calculate_means np_sum (read_csv w)
      (found_files w (nth 1 (argv w) "")) = Ok means ∧
    table_ok (found_files w (nth 1 (argv w) "")) means t.
Proof.
  unfold main. destruct (length (argv w) <? 2)%nat; [intros []|].
  set (directory := nth 1 (argv w) "").
  set (files := found_files w directory).
  destruct (length files =? 0)%nat; [intros []|].
  destruct (calculate_means np_sum (read_csv w) files) as [means|e] eqn:Hmeans;
    [|intros []].
  destruct (make_table w directory files means) as [ts r] eqn:Hloop. cbn.
  intros Hin. exists means. split; [done|].
  pose proof (calculate_means_wf _ _ _ _ Hmeans) as Hwf.
  unfold make_table in Hloop.
  assert (Hall : Forall (table_ok files means) ts).
  { refine (make_table_loop_tables _ _ _ _ _ _ _ Hwf _ _ Hloop); [done|].
    by intros fr [=]. }
  rewrite Forall_forall in Hall. by apply Hall, list_elem_of_In.
Qed.

Lemma file_row_full means file baseline r baseline' :
  file_row means file baseline r baseline' → full_row means r.
Proof.
  intros [b size ol ti ts te _ Hfm|b size n ol ti ts te sp th eff _ _ Hfm _ _ _].
  - eexists file, _, size, 0, ol, ti, ts, te, _, _. split; [done|]. split; [done|]. by left.
  - eexists file, _, size, n, ol, ti, ts, te, _, _. split; [done|]. split; [done|].
    right. by exists sp, eff.
Qed.

Lemma file_rows_full means baseline files rs baseline' :
  file_rows means baseline files rs baseline' → Forall (full_row means) rs.
Proof. induction 1; constructor; eauto using file_row_full. Qed.

Lemma full_row_length means r : full_row means r → length r = length fields.
Proof. by intros (? & ? & ? & ? & ? & ? & ? & ? & ? & ? & _ & -> & _). Qed.

(** C10, as it holds of the code. In every table handed to the writer, every row built from a
    file of the directory has the 9 entries of the header, in the order Type,
    Size, Threads, Opt Lvl, the means time_init, time_sort, time_elapsed of
    its file, speedup, efficiency. The first row, the cached default case,
    has them when the file it was built from is a serial one (thread count
    0); built from a file with another thread count it has the first 7
    only. *)
Theorem rows_match_header np_sum w t :
  In t (tables (main np_sum w)) →
  ∃ means fr rs,
    calculate_means np_sum (read_csv w)
      (found_files w (nth 1 (argv w) "")) = Ok means ∧
    table_fields t = fields ∧
    table_rows t = fr :: rs ∧
    Forall (λ r, full_row means r ∧ length r = length fields) rs ∧
    (full_row means fr ∨ short_parallel_row means fr) ∧
    (row_threads fr = Some 0 → full_row means fr ∧ length fr = length fields).
Proof.
  intros (means & Hmeans & Hfields & fr & rs & b & b' & Hrows & Hfr & Hrs)%main_tables.
  exists means, fr, rs. do 3 (split; [done|]). split; [|split; [done|]].
  - apply file_rows_full in Hrs. eapply Forall_impl; [exact Hrs|].
    intros r Hr. split; [done|]. by eapply full_row_length.
  - intros Hthreads. destruct Hfr as [Hfr|Hfr].
    + split; [done|]. by eapply full_row_length.
    + destruct Hfr as (? & ? & n & ? & ? & ? & ? & _ & Hn & ->).
      cbn in Hthreads. congruence.
Qed.

(** ** Speedup and efficiency *)

Lemma serial_type_not_parallel opt_lvl : measure_type true opt_lvl ≠ "Parallel".
Proof. unfold measure_type. by destruct (opt_lvl =? 0). Qed.

(** Parallel rows leave the serial time in force as it is. *)
Lemma file_rows_parallel_prefix means baseline files b2 rest baseline' :
  file_rows means baseline files (b2 ++ rest) baseline' →
  Forall (λ r, row_type r = Some "Parallel") b2 →
  ∃ files', file_rows means baseline files' rest baseline'.
Proof.
  revert baseline files. induction b2 as [|r b2 IH]; intros b files H Hpar.
  - by exists files.
  - inversion Hpar as [|? ? Hr Hpar']; subst.
    inversion H as [|? file ? b1 files' ? ? Hrow Hrest]; subst.
    destruct Hrow as [b size ol ti ts te _ _|b size n ol ti ts te sp th eff _ _ _ _ _ _].
    + cbn in Hr. injection Hr as Hr. by apply serial_type_not_parallel in Hr.
    + by eapply IH.
Qed.

Lemma file_rows_skip means baseline files b1 rest baseline' :
  file_rows means baseline files (b1 ++ rest) baseline' →
  ∃ baseline1 files', file_rows means baseline1 files' rest baseline'.
Proof.
  revert baseline files. induction b1 as [|r b1 IH]; intros b files H.
  - by exists b, files.
  - inversion H; subst. by eapply IH.
Qed.

Lemma file_rows_speedup means baseline files b1 s b2 p b3 baseline' :
  file_rows means baseline files (b1 ++ s :: b2 ++ p :: b3) baseline' →
  row_type s = Some "Serial" ∨ row_type s = Some "Default" →
  Forall (λ r, row_type r = Some "Parallel") b2 →
  row_type p = Some "Parallel" →
  derived_from s p.
Proof.
  intros H Hs Hb2 Hp.
  apply file_rows_skip in H as (b & files' & H).
  inversion H as [|? file ? b' files'' ? ? Hrow Hrest]; subst.
  destruct Hrow as [b size ol ti ts te _ _|b size n ol ti ts te sp th eff _ _ _ _ _ _];
    [|by destruct Hs as [Hs|Hs]].
  apply (file_rows_parallel_prefix _ _ _ _ _ _ Hrest) in Hb2 as (files1 & Hrest').
  inversion Hrest' as [|? file' ? b'' ? ? ? Hrow' _]; subst.
  inversion Hrow' as [|? size' n ol' ti' ts' te' sp th eff _ _ _ Hsp Hth Heff]; subst.
  - cbn in Hp. injection Hp as Hp. by apply serial_type_not_parallel in Hp.
  - by exists te, te', n, th, sp, eff.
Qed.

(** C1, as it holds of the code. In every emitted table, for a Serial (or Default) row of a
    file of the scenario with time_elapsed [t] and a Parallel row that
    follows it with only Parallel rows in between, the Parallel row has
    speedup = my_round (t / its time_elapsed) and
    efficiency = my_round (speedup / its thread count), which is what
    [derived_from] says. *)
Theorem speedup_from_latest_serial np_sum w t fr b1 s b2 p b3 :
  In t (tables (main np_sum w)) →
  table_rows t = fr :: b1 ++ s :: b2 ++ p :: b3 →
  row_type s = Some "Serial" ∨ row_type s = Some "Default" →
  Forall (λ r, row_type r = Some "Parallel") b2 →
  row_type p = Some "Parallel" →
  derived_from s p.
Proof.
  intros (means & _ & _ & fr' & rs & b & b' & Hrows & _ & Hrs)%main_tables Ht.
  rewrite Hrows in Ht. injection Ht as -> ->.
  by eapply file_rows_speedup.
Qed.

(** ** The first row of a table *)

(** Past a prefix of directories, the loop goes on from a state with no rows
    left over. *)
Lemma make_table_loop_prefix w files means pre l st ts r k t :
  rows st = [] →
  make_table_loop w files means (pre ++ l) st = (ts, r) →
  ts !! (length (scenarios pre) + k)%nat = Some t →
  ∃ st' ts', rows st' = [] ∧
    make_table_loop w files means l st' = (ts', r) ∧ ts' !! k = Some t.
Proof.
  revert st ts. induction pre as [|d pre IH]; intros st ts Hrows H Hk.
  - by exists st, ts.
  - cbn [app make_table_loop] in H. unfold scenarios in Hk. cbn [List.filter] in Hk.
    unfold is_default_dir in Hk at 1.
    destruct (endswith d "opt_0"); cbn [negb] in Hk.
    + destruct (default_step w means st d) as [st'|e] eqn:Hd.
      * apply default_step_inv in Hd as (fr & _ & ->).
        by refine (IH _ _ _ H Hk).
      * injection H as <- <-. by rewrite lookup_nil in Hk.
    + destruct (scenario_step files means st d) as [st'|e] eqn:Hs.
      * destruct (write_table fields (rows st')).
        -- destruct (make_table_loop _ _ _ _ _) as [ts' r'] eqn:Hloop.
           injection H as <- <-. cbn in Hk.
           by refine (IH _ _ _ Hloop Hk).
        -- injection H as <- <-. cbn in Hk. by rewrite ?lookup_nil in Hk.
      * injection H as <- <-. by rewrite lookup_nil in Hk.
Qed.

(** Directories that get a table leave the cached default case as it is. *)
Lemma make_table_loop_scenarios w files means mid l st ts r k t fr :
  Forall (λ d, is_default_dir d = false) mid →
  rows st = [] → first_row st = Some fr →
  make_table_loop w files means (mid ++ l) st = (ts, r) →
  ts !! (length mid + k)%nat = Some t →
  ∃ st' ts', rows st' = [] ∧ first_row st' = Some fr ∧
    make_table_loop w files means l st' = (ts', r) ∧ ts' !! k = Some t.
Proof.
  intros Hmid. revert st ts.
  induction Hmid as [|d mid Hd _ IH]; intros st ts Hrows Hfr H Hk.
  - by exists st, ts.
  - cbn [app make_table_loop] in H. unfold is_default_dir in Hd. rewrite Hd in H.
    destruct (scenario_step files means st d) as [st'|e] eqn:Hs.
    + destruct (scenario_step_inv _ _ _ _ _ Hs) as (fr' & rs & Hfr1 & Hfr2 & _).
      destruct (write_table fields (rows st')).
      * destruct (make_table_loop _ _ _ _ _) as [ts' r'] eqn:Hloop.
        injection H as <- <-. cbn in Hk.
        refine (IH _ _ _ _ Hloop Hk); [done|]. cbn. congruence.
      * injection H as <- <-. cbn in Hk. by rewrite ?lookup_nil in Hk.
    + injection H as <- <-. by rewrite lookup_nil in Hk.
Qed.

Lemma scenarios_app l1 l2 : scenarios (l1 ++ l2) = scenarios l1 ++ scenarios l2.
Proof. apply List.filter_app. Qed.

Lemma scenarios_all mid :
  Forall (λ d, is_default_dir d = false) mid → scenarios mid = mid.
Proof.
  induction 1 as [|d mid Hd _ IH]; [done|].
  unfold scenarios in *. cbn. by rewrite Hd, IH.
Qed.

(** C5. The table handed to the writer for a directory [d] that is not a
    default one starts with the cached default case: the row built, at the
    last directory ending in [opt_0] before [d] in sorted order, from the
    first file that directory lists. *)
Theorem first_row_is_default w root_dir files means pre d0 mid d post ts r t :
  subdirs_of w root_dir = pre ++ d0 :: mid ++ d :: post →
  is_default_dir d0 = true →
  Forall (λ x, is_default_dir x = false) (mid ++ [d]) →
  make_table w root_dir files means = (ts, r) →
  ts !! length (scenarios (pre ++ mid)) = Some t →
  table_dir t = d ∧
  ∃ fr rest, default_row w means d0 = Ok fr ∧ table_rows t = fr :: rest.
Proof.
  intros Hdirs Hd0 Hmid H Ht. unfold make_table in H. rewrite Hdirs in H.
  apply Forall_app in Hmid as [Hmid Hd]. apply Forall_inv in Hd.
  rewrite scenarios_app, length_app, (scenarios_all mid Hmid) in Ht.
  destruct (make_table_loop_prefix _ _ _ _ _ init_locals _ _ _ _ eq_refl H Ht)
    as (st1 & ts1 & Hrows1 & H1 & Ht1).
  cbn [make_table_loop] in H1. unfold is_default_dir in Hd0. rewrite Hd0 in H1.
  destruct (default_step w means st1 d0) as [st2|e] eqn:Hstep;
    [|injection H1 as <- <-; by rewrite lookup_nil in Ht1].
  apply default_step_inv in Hstep as (fr & Hfr & ->).
  rewrite <- (Nat.add_0_r (length mid)) in Ht1.
  destruct (make_table_loop_scenarios _ _ _ _ _
              {| rows := rows st1; first_row := Some fr;
                 time_serial := time_serial st1 |}
              _ _ _ _ fr Hmid Hrows1 eq_refl H1 Ht1)
    as (st3 & ts3 & Hrows3 & Hfr3 & H3 & Ht3).
  cbn [make_table_loop] in H3. unfold is_default_dir in Hd. rewrite Hd in H3.
  destruct (scenario_step files means st3 d) as [st4|e] eqn:Hs;
    [|injection H3 as <- <-; by rewrite lookup_nil in Ht3].
  destruct (scenario_step_inv _ _ _ _ _ Hs) as (fr' & rs & Hfr4 & _ & Hrs).
  rewrite Hrows3 in Hrs. cbn in Hrs.
  assert (fr' = fr) as -> by congruence.
  destruct (write_table fields (rows st4)).
  - destruct (make_table_loop w files means post _) as [ts' r'] eqn:Hloop.
    injection H3 as <- <-. cbn in Ht3. injection Ht3 as <-. cbn. split; [done|].
    by exists fr, rs.
  - injection H3 as <- <-. cbn in Ht3. injection Ht3 as <-. cbn. split; [done|].
    by exists fr, rs.
Qed.

(** ** Malformed file names *)

Lemma find_char_None c s :
  find (String c EmptyString) s = None ↔ ¬ occurs c s.
Proof.
  unfold occurs. induction s as [|a s IH]; cbn.
  - split; [tauto|done].
  - destruct (ascii_dec c a) as [->|Hne].
    + replace (String.prefix "" s) with true by (by destruct s).
      split; [done|]. intros H. exfalso. apply H. by left.
    + destruct (find (String c "") s) as [i|]; cbn.
      * split; [done|]. intros H. exfalso. apply H. right.
        destruct (in_dec ascii_dec c (list_ascii_of_string s)) as [Hin|Hnin]; [done|]. by apply IH in Hnin.
      * split; [|done]. intros _ [->|Hin]; [done|]. by apply IH in Hin.
Qed.

Lemma index_from_0_None c s : index_from c 0 s = None ↔ ¬ occurs c s.
Proof.
  unfold index_from. cbn [Nat.leb drop_chars]. rewrite <- find_char_None.
  destruct (find (String c "") s); cbn; split; done.
Qed.

Lemma int_field_inv mark stop filename n :
  int_field mark stop filename = Ok n →
  occurs mark filename ∧
  ∃ t, field_text mark stop filename = Ok t ∧ py_int t = Some n.
Proof.
  unfold int_field. intros H.
  apply bind_Ok_inv in H as (t & Ht & Hn%of_option_Ok_inv).
  split; [|by exists t].
  unfold field_text in Ht. apply bind_Ok_inv in Ht as (i & Hi%of_option_Ok_inv & _).
  destruct (in_dec ascii_dec mark (list_ascii_of_string filename)) as [Hin|Hnin]; [done|].
  apply index_from_0_None in Hnin. congruence.
Qed.

Lemma int_field_raise mark stop filename e :
  int_field mark stop filename = Raise e → e = ValueError.
Proof.
  unfold int_field, field_text.
  destruct (index_from mark 0 filename) as [i|]; cbn; [|congruence].
  destruct (index_from stop (S i) filename) as [j|]; cbn; [|congruence].
  destruct (py_int _); cbn; congruence.
Qed.

Lemma parse_file_name_raise file e :
  parse_file_name file = Raise e → e = ValueError.
Proof.
  unfold parse_file_name. cbv zeta.
  destruct (int_field "S"%char "_"%char (basename file)) as [size|e1] eqn:H1; cbn;
    [|intros Heq; replace e with e1 by congruence; by eapply int_field_raise].
  destruct (int_field "T"%char "_"%char (basename file)) as [nt|e2] eqn:H2; cbn;
    [|intros Heq; replace e with e2 by congruence; by eapply int_field_raise].
  destruct (int_field "O"%char "."%char (basename file)) as [ol|e3] eqn:H3; cbn;
    [done|intros Heq; replace e with e3 by congruence; by eapply int_field_raise].
Qed.

Lemma parse_file_name_inv file is_serial size num_threads opt_lvl :
  parse_file_name file = Ok (is_serial, size, num_threads, opt_lvl) →
  int_field "S"%char "_"%char (basename file) = Ok size ∧
  int_field "T"%char "_"%char (basename file) = Ok num_threads ∧
  int_field "O"%char "."%char (basename file) = Ok opt_lvl.
Proof.
  unfold parse_file_name. cbv zeta. intros H.
  apply bind_Ok_inv in H as (s & -> & H).
  apply bind_Ok_inv in H as (n & -> & H).
  apply bind_Ok_inv in H as (o & -> & H). by injection H as _ -> -> ->.
Qed.

Lemma malformed_name_raises file :
  (∃ mark stop, In (mark, stop) name_fields ∧
     (¬ occurs mark (basename file) ∨
      ∃ t, field_text mark stop (basename file) = Ok t ∧ py_int t = None)) →
  parse_file_name file = Raise ValueError.
Proof.
  intros (mark & stop & Hin & Hbad).
  destruct (parse_file_name file) as [[[[is_serial size] n] ol]|e] eqn:H.
  - exfalso. apply parse_file_name_inv in H as (HS & HT & HO).
    assert (Hok : ∃ v, int_field mark stop (basename file) = Ok v).
    { destruct Hin as [[= <- <-]|[[= <- <-]|[[= <- <-]|[]]]]; eauto. }
    destruct Hok as (v & (Hocc & t & Ht & Hv)%int_field_inv).
    destruct Hbad as [Hno|(t' & Ht' & Hnone)]; [done|].
    rewrite Ht in Ht'. injection Ht' as <-. congruence.
  - f_equal. by eapply parse_file_name_raise.
Qed.

Lemma file_step_parse_raise means st file e :
  parse_file_name file = Raise e → file_step means st file = Raise e.
Proof. intros H. unfold file_step. by rewrite H. Qed.

(** C7, as it holds of the code. A file whose base name lacks one of the markers S, T, O, or
    whose text between a marker and the character that ends its field is not
    a valid integer, makes [parse_file_name] raise [ValueError], the only
    exception it raises. Nothing catches it: the loop over the directories
    stops at the directory that holds the file, which gets no table, and no
    later directory gets one. *)
Theorem malformed_name_aborts file :
  ((∃ mark stop, In (mark, stop) name_fields ∧
      (¬ occurs mark (basename file) ∨
       ∃ t, field_text mark stop (basename file) = Ok t ∧ py_int t = None)) →
   parse_file_name file = Raise ValueError) ∧
  (∀ e, parse_file_name file = Raise e → e = ValueError) ∧
  (parse_file_name file = Raise ValueError →
   ∀ w files means st d rest,
     is_default_dir d = false → In file (curr_files files d) →
     ∃ e, make_table_loop w files means (d :: rest) st = ([], Raise e)).
Proof.
  split; [apply malformed_name_raises|]. split; [apply parse_file_name_raise|].
  intros Hraise w files means st d rest Hd Hin.
  cbn [make_table_loop]. unfold is_default_dir in Hd. rewrite Hd.
  assert (∃ e, scenario_step files means st d = Raise e) as [e ->]; [|by exists e].
  unfold scenario_step. destruct (first_row st) as [fr|]; cbn; [|by eexists].
  apply (for_fold_raises _ _ file Hin).
  intros s. exists ValueError. by apply file_step_parse_raise.
Qed.

(** ** A parallel file before any serial one *)

(** C3, as it holds of the code. In a directory whose first file in sorted order is a
    parallel one: when no serial file has been processed since the start of
    the run, the loop stops there with [UnboundLocalError] ([time_serial] is
    not assigned), the directory gets no table and no later directory gets
    one; when a serial file of an earlier directory has been processed,
    nothing is raised on that account and the row is computed against the
    serial time of that earlier directory. *)
Theorem parallel_before_serial w files means st d rest f fs
    size num_threads opt_lvl ti ts te fr :
  is_default_dir d = false →
  curr_files files d = f :: fs →
  parse_file_name f = Ok (false, size, num_threads, opt_lvl) →
  means !! f = Some (summary ti ts te) →
  first_row st = Some fr →
  (time_serial st = None →
   make_table_loop w files means (d :: rest) st = ([], Raise UnboundLocalError)) ∧
  (∀ stale, time_serial st = Some stale →
   scenario_step files means st d =
     speedup ← py_truediv stale te ≫= my_round;
     threads ← py_float_of_int num_threads;
     efficiency ← py_truediv speedup threads ≫= my_round;
     for_fold (file_step means)
       {| rows := rows st ++
                  [fr; [VStr "Parallel"; VInt size; VInt num_threads;
                        VInt opt_lvl; VFloat ti; VFloat ts; VFloat te;
                        VFloat speedup; VFloat efficiency]];
          first_row := Some fr; time_serial := Some stale |} fs).
Proof.
  intros Hd Hfiles Hparse Hfm Hfr.
  assert (Hstep : scenario_step files means st d =
                  s1 ← file_step means
                         {| rows := rows st ++ [fr]; first_row := first_row st;
                            time_serial := time_serial st |} f;
                  for_fold (file_step means) s1 fs).
  { unfold scenario_step. by rewrite Hfr, Hfiles. }
  unfold file_step in Hstep. rewrite Hparse in Hstep. cbn in Hstep.
  rewrite (create_row_summary _ _ _ _ _ _ _ _ _ Hfm), Hfm in Hstep. cbn in Hstep.
  split.
  - intros Hnone. cbn [make_table_loop]. unfold is_default_dir in Hd.
    rewrite Hd, Hstep, Hnone. reflexivity.
  - intros stale Hstale. rewrite Hstep, Hstale, Hfr. cbn.
    destruct (py_truediv stale te ≫= my_round) as [sp|e]; cbn; [|done].
    destruct (py_float_of_int num_threads) as [th|e]; cbn; [|done].
    destruct (py_truediv sp th ≫= my_round) as [eff|e]; cbn; [|done].
    by rewrite <- app_assoc.
Qed.

(** ** Row types *)

Lemma create_row_entries file is_serial size num_threads opt_lvl means r :
  create_row file is_serial size num_threads opt_lvl means = Ok r →
  ∃ cols, r = [VStr (measure_type is_serial opt_lvl); VInt size;
               VInt num_threads; VInt opt_lvl] ++ cols ++
              (if is_serial then [VInt 1; VInt 1] else []).
Proof.
  unfold create_row. intros H.
  apply bind_Ok_inv in H as (fm & _ & H).
  apply bind_Ok_inv in H as (cols & _ & H).
  exists cols. injection H as <-.
  destruct is_serial; cbn; by rewrite ?app_nil_r, <- ?app_assoc.
Qed.

(** C8, as it holds of the code. For every decoded file: [is_serial] holds iff the thread
    count is 0; the row type is Default iff the file is serial and the
    optimization level is 0, Serial iff it is serial and the optimization
    level is not 0, Parallel iff it is not serial; a Default or Serial row
    ends with speedup 1 and efficiency 1, its entries 8 and 9 when the means
    of the file are the three of [calculate_means]. *)
Theorem row_type_of_decoded_file file is_serial size num_threads opt_lvl :
  parse_file_name file = Ok (is_serial, size, num_threads, opt_lvl) →
  (is_serial = true ↔ num_threads = 0) ∧
  (measure_type is_serial opt_lvl = "Default" ↔ is_serial = true ∧ opt_lvl = 0) ∧
  (measure_type is_serial opt_lvl = "Serial" ↔ is_serial = true ∧ opt_lvl ≠ 0) ∧
  (measure_type is_serial opt_lvl = "Parallel" ↔ is_serial = false) ∧
  ∀ path means r,
    create_row path is_serial size num_threads opt_lvl means = Ok r →
    row_type r = Some (measure_type is_serial opt_lvl) ∧
    (is_serial = true →
     (∃ cols, r = [VStr (measure_type true opt_lvl); VInt size;
                   VInt num_threads; VInt opt_lvl] ++ cols ++ [VInt 1; VInt 1]) ∧
     (means_wf means →
      row_speedup r = Some (VInt 1) ∧ row_efficiency r = Some (VInt 1))).
Proof.
  intros Hparse.
  pose proof (parse_file_name_is_serial _ _ _ _ _ Hparse) as His.
  split; [|split; [|split; [|split]]].
  - rewrite His. apply bool_decide_eq_true.
  - unfold measure_type. destruct is_serial; [|split; [done|by intros [? _]]].
    destruct (Z.eqb_spec opt_lvl 0); split; try done; by intros [_ ?].
  - unfold measure_type. destruct is_serial; [|split; [done|by intros [? _]]].
    destruct (Z.eqb_spec opt_lvl 0); split; try done; by intros [_ ?].
  - unfold measure_type. destruct is_serial; [|done].
    destruct (opt_lvl =? 0); split; done.
  - intros path means r Hrow. split.
    + apply create_row_entries in Hrow as (cols & ->). done.
    + intros ->. split; [by apply create_row_entries in Hrow|].
      intros Hwf. by apply create_row_inv in Hrow as (? & ? & ? & _ & ->).
Qed.

(** ** The exits of [main] *)

Lemma found_files_none w directory :
  (∀ root files_found file,
     In (root, files_found) (walk w directory) → In file files_found →
     qualifying file = false) →
  found_files w directory = [].
Proof.
  unfold found_files. intros H.
  assert (Hflat : ∀ l, (∀ root fs file, In (root, fs) l → In file fs →
                         qualifying file = false) →
     flat_map (λ '(root, files_found),
                 map (path_join root) (List.filter qualifying files_found)) l = []).
  { induction l as [|[root fs] l IH]; intros Hl; [done|]. cbn.
    rewrite IH by (intros; eapply Hl; eauto; by right).
    assert (List.filter qualifying fs = []) as ->; [|done].
    assert (Hfs : ∀ file, In file fs → qualifying file = false)
      by (intros; eapply Hl; eauto; by left).
    clear -Hfs. induction fs as [|f fs IH]; [done|]. cbn.
    rewrite (Hfs f) by (by left). apply IH. intros; apply Hfs; by right. }
  by rewrite Hflat.
Qed.

(** C9. Without the positional directory argument, [main] prints the usage
    message and exits with code 1; with it, when the walk finds no file that
    ends in [.csv] and does not contain [table], [main] exits with code 1. *)
Theorem main_exits_with_1 np_sum w :
  ((length (argv w) < 2)%nat →
   main np_sum w = {| stdout := usage; tables := []; status := Exited 1 |}) ∧
  ((2 ≤ length (argv w))%nat →
   (∀ root files_found file,
      In (root, files_found) (walk w (nth 1 (argv w) "")) →
      In file files_found →
      ¬ (endswith file ".csv" = true ∧ find "table" file = None)) →
   main np_sum w =
     {| stdout := ["No output files found. Exiting the script."];
        tables := []; status := Exited 1 |}).
Proof.
  split.
  - intros Hlen. unfold main. by rewrite (proj2 (Nat.ltb_lt _ _) Hlen).
  - intros Hlen Hnone. unfold main.
    rewrite (proj2 (Nat.ltb_ge _ _) Hlen).
    rewrite found_files_none; [done|].
    intros root fs file Hroot Hfile. specialize (Hnone root fs file Hroot Hfile).
    unfold qualifying. destruct (endswith file ".csv"); [|done]. cbn.
    apply bool_decide_eq_false. tauto.
Qed.

(** ** The sample runs *)

Example spec_example_run :
  run_on "size1000" spec_example =
    {| stdout := ["Calculating means..."; "Creating tables and plots..."];
       tables := [mk_table "size1000/opt_1" spec_example_rows];
       status := Completed |}.
Proof. vm_compute. reflexivity. Qed.

Example two_serial_run :
  tables (run_on "size10" two_serial) = [mk_table "size10/opt_1" two_serial_rows].
Proof. vm_compute. reflexivity. Qed.

Example parallel_default_run :
  run_on "size10" parallel_default =
    {| stdout := ["Calculating means..."; "Creating tables and plots..."];
       tables := [mk_table "size10/opt_1" parallel_default_rows];
       status := Uncaught RowArityError |}.
Proof. vm_compute. reflexivity. Qed.

(** The example of the specification: serial 10.0, parallel 3.0 on 4 threads,
    speedup 3.33333 and efficiency 0.83333. *)
Lemma spec_example_speedup :
  derived_from (mk_row "Serial" 1000 0 1 (F64.of_Z 4) (F64.of_Z 6) (F64.of_Z 10)
                       [VInt 1; VInt 1])
               (mk_row "Parallel" 1000 4 1 (F64.of_Z 1) (F64.of_Z 2) (F64.of_Z 3)
                       [VFloat (F64.of_ratio false 333333 100000);
                        VFloat (F64.of_ratio false 83333 100000)]).
Proof.
  apply (speedup_from_latest_serial seq_sum
           (tree_world ["evaluate.py"; "size1000"] "size1000" spec_example)
           (mk_table "size1000/opt_1" spec_example_rows)
           (mk_row "Default" 1000 0 0 (F64.of_Z 8) (F64.of_Z 12) (F64.of_Z 20)
                   [VInt 1; VInt 1])
           [] _ [] _ []).
  - vm_compute. left. reflexivity.
  - reflexivity.
  - left. reflexivity.
  - constructor.
  - reflexivity.
Defined.

(** Two serial files in one directory: the Parallel row follows the Serial row of
    elapsed time 10.0 and has a speedup of 5.0, not my_round (10.0 / 4.0). *)
Lemma two_serial_rows_speedup :
  ∃ t fr s s' p,
    In t (tables (run_on "size10" two_serial)) ∧
    table_rows t = fr :: s :: s' :: p :: [] ∧
    row_type s = Some "Serial" ∧ row_elapsed s = Some (F64.of_Z 10) ∧
    row_type p = Some "Parallel" ∧ row_elapsed p = Some (F64.of_Z 4) ∧
    row_speedup p = Some (VFloat (F64.of_Z 5)) ∧
    py_truediv (F64.of_Z 10) (F64.of_Z 4) ≫= my_round = Ok (F64.of_ratio false 5 2) ∧
    ¬ derived_from s p.
Proof.
  exists (mk_table "size10/opt_1" two_serial_rows).
  eexists _, _, _, _. split; [vm_compute; left; reflexivity|].
  split; [reflexivity|]. do 6 (split; [vm_compute; reflexivity|]).
  intros (t_s & t_p & n & th & sp & eff & Hs & Hp & _ & Hsp & Hrow & _).
  vm_compute in Hs, Hp, Hrow. injection Hs as <-. injection Hp as <-.
  injection Hrow as <-. vm_compute in Hsp. discriminate Hsp.
Qed.

(** A robust mean of the example, through its decimal rounding. *)
Lemma rounding_of_ten_thirds :
  ∃ c, nearest_half_even (7505999378950827 * 100000 * 2 ^ Z.max (-51) 0)
                         (2 ^ Z.max (- -51) 0) c ∧
       F64.of_ratio false 333333 100000 = float_of_decimal5 false c.
Proof.
  apply (proj2 (column_mean_is_robust_mean seq_sum) false 7505999378950827%positive (-51)).
  vm_compute. reflexivity.
Defined.

(** A directory with a parallel file only stops the run: the complete
    directory after it gets no table. After a complete directory, the same
    directory raises nothing and gets a table. *)
Lemma parallel_first_aborts :
  run_on "size10" parallel_first =
    {| stdout := ["Calculating means..."; "Creating tables and plots..."];
       tables := []; status := Uncaught UnboundLocalError |} ∧
  status (run_on "size10" parallel_later) = Completed ∧
  nth_error (tables (run_on "size10" parallel_later)) 1 =
    Some (mk_table "size10/opt_2" parallel_later_rows).
Proof. vm_compute. repeat split; reflexivity. Qed.

Lemma parallel_first_unbound :
  make_table_loop (tree_world ["evaluate.py"; "size10"] "size10" parallel_first)
    (found_files (tree_world ["evaluate.py"; "size10"] "size10" parallel_first) "size10")
    (means_of "size10" parallel_first)
    ["size10/opt_1"; "size10/opt_2"]
    {| rows := [];
       first_row := Some (mk_row "Default" 10 0 0 (F64.of_Z 8) (F64.of_Z 12)
                                 (F64.of_Z 20) [VInt 1; VInt 1]);
       time_serial := None |} = ([], Raise UnboundLocalError).
Proof.
  refine (proj1 (parallel_before_serial _ _ _ _ "size10/opt_1" ["size10/opt_2"]
                   "size10/opt_1/S10_T4_O1.csv" [] 10 4 1
                   (F64.of_Z 1) (F64.of_Z 3) (F64.of_Z 4) _ _ _ _ _ _) _);
    try (vm_compute; reflexivity).
Defined.

Lemma spec_example_time_elapsed :
  ∃ content init_data sort_data time_init time_sort time_elapsed,
    read_csv (tree_world ["evaluate.py"; "size1000"] "size1000" spec_example)
      "size1000/opt_1/S1000_T4_O1.csv" = Ok content ∧
    df_col content "time_init" = Ok init_data ∧
    column_mean seq_sum init_data = Ok time_init ∧
    df_col content "time_sort" = Ok sort_data ∧
    column_mean seq_sum sort_data = Ok time_sort ∧
    dict_get (summary (F64.of_Z 1) (F64.of_Z 2) (F64.of_Z 3)) "time_init" = Ok time_init ∧
    dict_get (summary (F64.of_Z 1) (F64.of_Z 2) (F64.of_Z 3)) "time_sort" = Ok time_sort ∧
    dict_get (summary (F64.of_Z 1) (F64.of_Z 2) (F64.of_Z 3)) "time_elapsed" = Ok time_elapsed ∧
    my_round (F64.add time_init time_sort) = Ok time_elapsed.
Proof.
  apply (time_elapsed_is_rounded_sum seq_sum _
           (found_files (tree_world ["evaluate.py"; "size1000"] "size1000" spec_example)
                        "size1000")
           (means_of "size1000" spec_example)).
  - vm_compute. reflexivity.
  - vm_compute. reflexivity.
Defined.

Lemma parallel_later_first_row :
  table_dir (mk_table "size10/opt_2" parallel_later_rows) = "size10/opt_2" ∧
  ∃ fr rest,
    default_row (tree_world ["evaluate.py"; "size10"] "size10" parallel_later)
      (means_of "size10" parallel_later) "size10/opt_0" = Ok fr ∧
    table_rows (mk_table "size10/opt_2" parallel_later_rows) = fr :: rest.
Proof.
  apply (first_row_is_default
           (tree_world ["evaluate.py"; "size10"] "size10" parallel_later) "size10"
           (found_files (tree_world ["evaluate.py"; "size10"] "size10" parallel_later)
                        "size10")
           (means_of "size10" parallel_later)
           [] "size10/opt_0" ["size10/opt_1"] "size10/opt_2" []
           (tables (run_on "size10" parallel_later)) (Ok tt)).
  - vm_compute. reflexivity.
  - vm_compute. reflexivity.
  - repeat constructor.
  - vm_compute. reflexivity.
  - vm_compute. reflexivity.
Defined.

(** The name [foo.csv] stops the run: no table, not even for the complete
    directory after the one that holds it. *)
Lemma malformed_run_aborts :
  parse_file_name "size10/opt_1/foo.csv" = Raise ValueError ∧
  run_on "size10" malformed =
    {| stdout := ["Calculating means..."; "Creating tables and plots..."];
       tables := []; status := Uncaught ValueError |}.
Proof. vm_compute. split; reflexivity. Qed.

Lemma foo_csv_aborts :
  parse_file_name "size10/opt_1/foo.csv" = Raise ValueError ∧
  ∃ e,
    make_table_loop (tree_world ["evaluate.py"; "size10"] "size10" malformed)
      (found_files (tree_world ["evaluate.py"; "size10"] "size10" malformed) "size10")
      (means_of "size10" malformed)
      ["size10/opt_1"; "size10/opt_2"] init_locals = ([], Raise e).
Proof.
  destruct (malformed_name_aborts "size10/opt_1/foo.csv") as (Hraise & _ & Habort).
  assert (H : parse_file_name "size10/opt_1/foo.csv" = Raise ValueError).
  { apply Hraise. exists "S"%char, "_"%char. split; [by left|]. left.
    vm_compute. intuition discriminate. }
  split; [exact H|].
  apply (Habort H); [reflexivity|]. vm_compute. tauto.
Defined.

(** An optimization level below 0: a Serial row, although the level is not
    above 0. *)
Lemma negative_opt_lvl_is_serial :
  parse_file_name "S10_T0_O-1.csv" = Ok (true, 10, 0, -1) ∧
  measure_type true (-1) = "Serial" ∧
  ¬ (measure_type true (-1) = "Serial" ↔ true = true ∧ -1 > 0).
Proof.
  split; [reflexivity|]. split; [reflexivity|].
  intros [H _]. destruct (H eq_refl) as [_ Hpos]. lia.
Qed.

Lemma serial_type_of_negative_opt_lvl :
  measure_type true (-1) = "Serial" ↔ true = true ∧ -1 ≠ 0.
Proof.
  apply (row_type_of_decoded_file "S10_T0_O-1.csv" true 10 0 (-1)).
  reflexivity.
Defined.

Lemma exits_of_sample_runs :
  main seq_sum (tree_world ["evaluate.py"] "" []) =
    {| stdout := usage; tables := []; status := Exited 1 |} ∧
  run_on "size10" no_measures =
    {| stdout := ["No output files found. Exiting the script."];
       tables := []; status := Exited 1 |}.
Proof.
  split.
  - apply (proj1 (main_exits_with_1 seq_sum (tree_world ["evaluate.py"] "" []))).
    vm_compute. lia.
  - apply (proj2 (main_exits_with_1 seq_sum
                    (tree_world ["evaluate.py"; "size10"] "size10" no_measures))).
    + vm_compute. lia.
    + intros root fs file Hroot Hfile [Hcsv Htable].
      vm_compute in Hroot.
      destruct Hroot as [[= <- <-]|[[= <- <-]|[]]]; [destruct Hfile|].
      destruct Hfile as [<-|[<-|[]]]; vm_compute in Hcsv, Htable; discriminate.
Defined.

Lemma spec_example_rows_match :
  ∃ means fr rs,
    calculate_means seq_sum
      (read_csv (tree_world ["evaluate.py"; "size1000"] "size1000" spec_example))
      (found_files (tree_world ["evaluate.py"; "size1000"] "size1000" spec_example)
         (nth 1 (argv (tree_world ["evaluate.py"; "size1000"] "size1000" spec_example)) ""))
      = Ok means ∧
    table_fields (mk_table "size1000/opt_1" spec_example_rows) = fields ∧
    table_rows (mk_table "size1000/opt_1" spec_example_rows) = fr :: rs ∧
    Forall (λ r, full_row means r ∧ length r = length fields) rs ∧
    (full_row means fr ∨ short_parallel_row means fr) ∧
    (row_threads fr = Some 0 → full_row means fr ∧ length fr = length fields).
Proof.
  apply (rows_match_header seq_sum
           (tree_world ["evaluate.py"; "size1000"] "size1000" spec_example)).
  vm_compute. left. reflexivity.
Defined.

(** A default file that names 4 threads: the first row handed to the writer
    has 7 entries, not the 9 of the header. *)
Lemma parallel_default_first_row :
  ∃ t r,
    In t (tables (run_on "size10" parallel_default)) ∧
    In r (table_rows t) ∧ length r = 7%nat ∧ length (table_fields t) = 9%nat.
Proof.
  exists (mk_table "size10/opt_1" parallel_default_rows).
  exists (mk_row "Parallel" 10 4 0 (F64.of_Z 8) (F64.of_Z 12) (F64.of_Z 20) []).
  split; [vm_compute; left; reflexivity|].
  split; [left; reflexivity|]. split; reflexivity.
Qed.

(** * Further properties of the code *)

(** ** Strings *)

Lemma append_cons c s t : String c s +:+ t = String c (s +:+ t).
Proof. reflexivity. Qed.

Lemma append_nil_l t : "" +:+ t = t.
Proof. reflexivity. Qed.

Lemma occurs_append c s t : occurs c (s +:+ t) ↔ occurs c s ∨ occurs c t.
Proof.
  unfold occurs. induction s as [|a s IH]; [cbn; tauto|].
  rewrite append_cons. cbn. rewrite IH. tauto.
Qed.

Lemma find_char_here c s : find (String c "") (String c s) = Some 0%nat.
Proof. cbn. destruct (ascii_dec c c); [|done]. by destruct s. Qed.

Lemma find_char_later c a s :
  a ≠ c → find (String c "") (String a s) = S <$> find (String c "") s.
Proof. intros Hne. cbn. by destruct (ascii_dec c a) as [->|_]. Qed.

(** The first occurrence of [c] after a text that does not hold it. *)
Lemma find_char_append c s t :
  ¬ occurs c s → find (String c "") (s +:+ String c t) = Some (String.length s).
Proof.
  induction s as [|a s IH]; intros Hs.
  - apply find_char_here.
  - rewrite append_cons, find_char_later.
    + rewrite IH; [done|]. intros H. apply Hs. by right.
    + intros ->. apply Hs. by left.
Qed.

Lemma drop_chars_append s t : drop_chars (String.length s) (s +:+ t) = t.
Proof. induction s as [|a s IH]; [done|]. by rewrite append_cons. Qed.

Lemma length_append s t :
  String.length (s +:+ t) = (String.length s + String.length t)%nat.
Proof. induction s as [|a s IH]; [done|]. rewrite append_cons. cbn. by rewrite IH. Qed.

Lemma index_from_append c s u t :
  ¬ occurs c u →
  index_from c (String.length s) (s +:+ u +:+ String c t) =
    Some (String.length s + String.length u)%nat.
Proof.
  intros Hu. unfold index_from.
  rewrite length_append, drop_chars_append, find_char_append by done.
  rewrite (proj2 (Nat.leb_le _ _)) by lia. done.
Qed.

Lemma substring_append n s t :
  String.length s = n → substring 0 n (s +:+ t) = s.
Proof.
  revert n. induction s as [|a s IH]; intros n Hn.
  - cbn in Hn. subst n. by destruct t.
  - cbn in Hn. subst n. rewrite append_cons. cbn. by rewrite IH.
Qed.

Lemma substring_skip s u n :
  substring (String.length s) n (s +:+ u) = substring 0 n u.
Proof. induction s as [|a s IH]; [done|]. rewrite append_cons. cbn. apply IH. Qed.

(** The text between two positions of a concatenation. *)
Lemma slice_append s u t :
  slice (String.length s) (String.length s + String.length u) (s +:+ u +:+ t) = u.
Proof.
  unfold slice. replace (_ + _ - _)%nat with (String.length u) by lia.
  by rewrite substring_skip, substring_append.
Qed.

Lemma append_nil_r s : s +:+ "" = s.
Proof. induction s as [|a s IH]; [done|]. by rewrite append_cons, IH. Qed.

Lemma append_assoc s t u : (s +:+ t) +:+ u = s +:+ t +:+ u.
Proof. induction s as [|a s IH]; [done|]. by rewrite !append_cons, IH. Qed.

Lemma rev_app_rev_app s t u :
  String.rev_app (String.rev_app s t) u = String.rev_app t (s +:+ u).
Proof.
  revert t u. induction s as [|a s IH]; intros t u; [done|].
  cbn [String.rev_app]. by rewrite IH.
Qed.

Lemma rev_rev s : String.rev (String.rev s) = s.
Proof. unfold String.rev. rewrite rev_app_rev_app. cbn. apply append_nil_r. Qed.

Lemma occurs_rev_app c s t :
  occurs c (String.rev_app s t) ↔ occurs c s ∨ occurs c t.
Proof.
  revert t. induction s as [|a s IH]; intros t; [unfold occurs; cbn; tauto|].
  cbn [String.rev_app]. rewrite IH. unfold occurs. cbn. tauto.
Qed.

Lemma lstrip_id s :
  (∀ c, occurs c s → is_py_space c = false) → lstrip s = s.
Proof.
  destruct s as [|a s]; [done|]. intros H. cbn.
  rewrite (H a); [done|]. by left.
Qed.

(** A text without white space is its own [strip]. *)
Lemma strip_id s :
  (∀ c, occurs c s → is_py_space c = false) → strip s = s.
Proof.
  intros H. unfold strip. rewrite (lstrip_id s H), lstrip_id, rev_rev; [done|].
  intros c Hc. apply H. unfold String.rev in Hc.
  apply occurs_rev_app in Hc as [Hc|[]]. done.
Qed.

(** ** Numerals *)

Lemma digit_val_digit_char d :
  (d < 10)%nat → digit_val (digit_char d) = Some (Z.of_nat d).
Proof. intros Hd. do 10 (destruct d as [|d]; [reflexivity|]). lia. Qed.

Lemma digit_char_plain d c :
  (d < 10)%nat → digit_val c = None → digit_char d ≠ c.
Proof. intros Hd Hc <-. by rewrite digit_val_digit_char in Hc. Qed.

Lemma occurs_numeral c ds :
  Forall (λ d, (d < 10)%nat) ds → occurs c (numeral ds) → is_Some (digit_val c).
Proof.
  induction 1 as [|d ds Hd _ IH]; [intros []|].
  intros [<-|Hc]; [|by apply IH]. by rewrite digit_val_digit_char.
Qed.

Lemma numeral_lacks c ds :
  Forall (λ d, (d < 10)%nat) ds → digit_val c = None → ¬ occurs c (numeral ds).
Proof.
  intros Hds Hc Hocc. apply (occurs_numeral _ _ Hds) in Hocc.
  rewrite Hc in Hocc. by destruct Hocc.
Qed.

Lemma digit_not_space c : is_Some (digit_val c) → is_py_space c = false.
Proof.
  unfold digit_val, is_py_space. intros [v Hv].
  destruct (48 <=? N_of_ascii c)%N eqn:H1; [|discriminate].
  destruct (N_of_ascii c <=? 57)%N eqn:H2; [|discriminate].
  apply N.leb_le in H1, H2.
  rewrite (proj2 (N.leb_gt _ 13)), (proj2 (N.leb_gt _ 32)) by lia.
  by rewrite !andb_false_r.
Qed.

Lemma digits_value_numeral ds acc prev :
  Forall (λ d, (d < 10)%nat) ds → ds ≠ [] ∨ prev = true →
  digits_value acc prev (numeral ds) =
    Some (fold_left (λ acc d, 10 * acc + Z.of_nat d) ds acc).
Proof.
  intros Hds. revert acc prev.
  induction Hds as [|d ds Hd _ IH]; intros acc prev Hne.
  - destruct Hne as [Hne | ->]; [done|reflexivity].
  - cbn [numeral digits_value fold_left].
    rewrite (digit_val_digit_char d Hd). apply IH. by right.
Qed.

(** [int] of a numeral is the number it denotes. *)
Lemma py_int_numeral ds : is_numeral ds → py_int (numeral ds) = Some (numeral_value ds).
Proof.
  intros [Hne Hds]. unfold py_int.
  rewrite strip_id by (intros c Hc; eapply digit_not_space, occurs_numeral; eauto).
  destruct ds as [|d ds]; [done|]. cbn [numeral].
  apply Forall_cons in Hds as Hd. destruct Hd as [Hd _].
  destruct (Ascii.eqb_spec (digit_char d) "-") as [E|_];
    [by apply (digit_char_plain d "-"%char) in E|].
  destruct (Ascii.eqb_spec (digit_char d) "+") as [E|_];
    [by apply (digit_char_plain d "+"%char) in E|].
  change (String (digit_char d) (numeral ds)) with (numeral (d :: ds)).
  apply digits_value_numeral; [done|by left].
Qed.

(** ** File names that follow the convention *)

Lemma append_char_split pre c x : pre +:+ String c x = (pre +:+ String c "") +:+ x.
Proof. by rewrite append_assoc. Qed.

(** The field after the first [mark], up to the next [stop]. *)
Lemma field_text_at mark stop pre u post :
  ¬ occurs mark pre → ¬ occurs stop u →
  field_text mark stop (pre +:+ String mark (u +:+ String stop post)) = Ok u.
Proof.
  intros Hpre Hu. unfold field_text.
  assert (index_from mark 0 (pre +:+ String mark (u +:+ String stop post))
          = Some (String.length pre)) as ->.
  { unfold index_from. cbn [Nat.leb drop_chars]. by rewrite find_char_append. }
  cbn. rewrite (append_char_split pre mark).
  replace (S (String.length pre)) with (String.length (pre +:+ String mark ""))
    by (rewrite length_append; cbn; lia).
  rewrite index_from_append by done. cbn. by rewrite slice_append.
Qed.

Lemma int_field_at mark stop pre ds post :
  ¬ occurs mark pre → digit_val stop = None → is_numeral ds →
  int_field mark stop (pre +:+ String mark (numeral ds +:+ String stop post))
    = Ok (numeral_value ds).
Proof.
  intros Hpre Hstop Hds. unfold int_field.
  rewrite field_text_at; [|done|apply numeral_lacks; [apply Hds|done]].
  cbn. by rewrite py_int_numeral.
Qed.

Lemma basename_from_plain acc f :
  ¬ occurs "/" f → basename_from acc f = acc +:+ f.
Proof.
  revert acc. induction f as [|a f IH]; intros acc Hf; cbn.
  - by rewrite append_nil_r.
  - destruct (Ascii.eqb_spec a "/") as [->|_]; [exfalso; apply Hf; by left|].
    rewrite IH by (intros H; apply Hf; by right). by rewrite append_assoc.
Qed.

Lemma basename_from_append acc a f :
  basename_from acc (a +:+ f) = basename_from (basename_from acc a) f.
Proof.
  revert acc. induction a as [|c a IH]; intros acc; [done|].
  rewrite append_cons. cbn. destruct (Ascii.eqb c "/"); apply IH.
Qed.

Lemma basename_from_slash acc a :
  endswith a "/" = true → basename_from acc a = "".
Proof.
  revert acc. induction a as [|c a IH]; intros acc; [done|].
  unfold endswith. cbn [String.length Nat.leb andb Nat.sub].
  destruct a as [|c' a'].
  - cbn. destruct (Ascii.eqb_spec c "/") as [->|Hne]; [done|].
    destruct (Ascii.eqb_spec c "/"); done.
  - intros H. cbn [basename_from].
    assert (Hend : endswith (String c' a') "/" = true).
    { unfold endswith. cbn [String.length Nat.leb andb Nat.sub] in *.
      by rewrite Nat.sub_0_r in *. }
    destruct (Ascii.eqb c "/"); by apply IH.
Qed.

(** The base name of a file joined to a directory is the file. *)
Lemma basename_path_join d f : ¬ occurs "/" f → basename (path_join d f) = f.
Proof.
  intros Hf. unfold path_join.
  assert (String.prefix "/" f = false) as ->.
  { destruct f as [|c f]; [done|].
    change (String.prefix "/" (String c f))
      with (if ascii_dec "/" c then String.prefix "" f else false).
    destruct (ascii_dec "/" c) as [<-|_]; [exfalso; apply Hf; by left|done]. }
  unfold basename.
  destruct (String.eqb_spec d "") as [->|_]; cbn [orb].
  - by rewrite append_nil_l, basename_from_plain.
  - destruct (endswith d "/") eqn:Hd.
    + rewrite basename_from_append, (basename_from_slash "" d Hd).
      by rewrite basename_from_plain.
    + rewrite basename_from_append, basename_from_append.
      rewrite (basename_from_slash _ "/" eq_refl).
      by rewrite basename_from_plain.
Qed.

Lemma measure_name_no_slash size threads opt :
  is_numeral size → is_numeral threads → is_numeral opt →
  ¬ occurs "/" (measure_name size threads opt).
Proof.
  intros [_ H1] [_ H2] [_ H3]. unfold measure_name.
  rewrite !occurs_append.
  intros [H|[H|[H|[H|[H|[H|H]]]]]];
    try (by eapply (numeral_lacks "/"%char) in H);
    unfold occurs in H; cbn in H; intuition discriminate.
Qed.

(** X1. A file named by the convention [S<size>_T<threads>_O<opt>.csv], in any
    directory, decodes to the three numbers written in it, and is serial
    exactly when the number of threads is 0. *)
Theorem parse_measure_name dir size threads opt :
  is_numeral size → is_numeral threads → is_numeral opt →
  parse_file_name (path_join dir (measure_name size threads opt)) =
    Ok (bool_decide (numeral_value threads = 0), numeral_value size,
        numeral_value threads, numeral_value opt).
Proof.
  intros Hs Ht Ho. unfold parse_file_name.
  rewrite basename_path_join by by apply measure_name_no_slash.
  cbv zeta.
  assert (int_field "S" "_" (measure_name size threads opt)
          = Ok (numeral_value size)) as ->.
  { apply (int_field_at "S" "_" "" size); [by intros []|done|done]. }
  assert (int_field "T" "_" (measure_name size threads opt)
          = Ok (numeral_value threads)) as ->.
  { replace (measure_name size threads opt)
      with (("S" +:+ numeral size +:+ "_") +:+
            String "T" (numeral threads +:+
              String "_" ("O" +:+ numeral opt +:+ ".csv")))
      by (unfold measure_name; by rewrite !append_assoc).
    apply int_field_at; [|done|done].
    rewrite !occurs_append. intros [H|[H|H]].
    - unfold occurs in H; cbn in H; intuition discriminate.
    - by eapply (numeral_lacks "T"%char) in H; [|apply Hs|].
    - unfold occurs in H; cbn in H; intuition discriminate. }
  assert (int_field "O" "." (measure_name size threads opt)
          = Ok (numeral_value opt)) as ->.
  { replace (measure_name size threads opt)
      with (("S" +:+ numeral size +:+ "_T" +:+ numeral threads +:+ "_") +:+
            String "O" (numeral opt +:+ String "." "csv"))
      by (unfold measure_name; by rewrite !append_assoc).
    apply int_field_at; [|done|done].
    rewrite !occurs_append. intros [H|[H|[H|[H|H]]]].
    - unfold occurs in H; cbn in H; intuition discriminate.
    - by eapply (numeral_lacks "O"%char) in H; [|apply Hs|].
    - unfold occurs in H; cbn in H; intuition discriminate.
    - by eapply (numeral_lacks "O"%char) in H; [|apply Ht|].
    - unfold occurs in H; cbn in H; intuition discriminate. }
  cbn. do 2 f_equal.
  destruct (Z.eqb_spec (numeral_value threads) 0);
    [by rewrite bool_decide_true|by rewrite bool_decide_false].
Qed.

Lemma parse_S1000_T4_O1 :
  parse_file_name (path_join "out/opt_1" (measure_name [1;0;0;0] [4] [1])%nat) =
    Ok (bool_decide (numeral_value [4%nat] = 0), numeral_value [1;0;0;0]%nat,
        numeral_value [4%nat], numeral_value [1%nat]).
Proof.
  apply parse_measure_name; (split; [done|repeat constructor; lia]).
Defined.

(** X2. The decoding of a file looks at its base name only: a file found in
    a directory decodes as the bare file name does. *)
Theorem parse_file_name_path_join dir file :
  ¬ occurs "/" file →
  parse_file_name (path_join dir file) = parse_file_name file.
Proof.
  intros Hf. unfold parse_file_name.
  rewrite basename_path_join by done.
  replace (basename file) with file; [done|].
  unfold basename. by rewrite basename_from_plain.
Qed.

Lemma parse_foo_in_dir :
  parse_file_name (path_join "size10/opt_1" "S10_T4_O1.csv") =
    parse_file_name "S10_T4_O1.csv".
Proof.
  apply parse_file_name_path_join. unfold occurs. cbn. intuition discriminate.
Defined.

(** ** [create_row] on any dictionary *)

Lemma dict_lookup_key k (fm : file_mean) :
  In k (dict_keys fm) → is_Some (dict_lookup k fm).
Proof.
  induction fm as [|[k' v] fm IH]; [intros []|]. cbn.
  destruct (String.eqb_spec k k') as [->|Hne]; [by eexists|].
  intros [->|Hin]; [done|by apply IH].
Qed.

Lemma for_each_keys (fm : file_mean) keys :
  (∀ k, In k keys → In k (dict_keys fm)) →
  ∃ cols, for_each (λ col, VFloat <$> dict_get fm col) keys = Ok cols ∧
          length cols = length keys.
Proof.
  induction keys as [|k keys IH]; intros Hkeys; [by exists []|].
  destruct IH as (cols & Hcols & Hlen); [intros; apply Hkeys; by right|].
  destruct (dict_lookup_key k fm) as [v Hv]; [apply Hkeys; by left|].
  exists (VFloat v :: cols). cbn [for_each]. rewrite Hcols.
  unfold dict_get. rewrite Hv. cbn. by rewrite Hlen.
Qed.

(** X3. [create_row] raises nothing but [KeyError], and that exactly when
    the file has no entry in the means; with an entry of [k] columns the row
    has the four leading fields, [k] means and, for a serial file, the two
    trailing 1s. *)
Theorem create_row_outcome file is_serial size num_threads opt_lvl
    (means : gmap string file_mean) :
  (means !! file = None →
   create_row file is_serial size num_threads opt_lvl means = Raise KeyError) ∧
  (∀ fm : file_mean, means !! file = Some fm →
   ∃ r, create_row file is_serial size num_threads opt_lvl means = Ok r ∧
        length r = (4 + length fm + (if is_serial then 2 else 0))%nat).
Proof.
  split.
  - intros H. unfold create_row. by rewrite H.
  - intros fm H.
    destruct (for_each_keys fm (dict_keys fm)) as (cols & Hcols & Hlen); [done|].
    unfold dict_keys in Hlen. rewrite length_map in Hlen.
    eexists. split.
    + unfold create_row. rewrite H. cbn [of_option mbind result_bind].
      rewrite Hcols. reflexivity.
    + destruct is_serial; cbn; rewrite ?length_app; cbn; lia.
Qed.

Lemma create_row_spec_example :
  ∃ r, create_row "size1000/opt_1/S1000_T4_O1.csv" false 1000 4 1
         (means_of "size1000" spec_example) = Ok r ∧
       length r = (4 + length (summary (F64.of_Z 1) (F64.of_Z 2) (F64.of_Z 3)) + 0)%nat.
Proof.
  apply (proj2 (create_row_outcome "size1000/opt_1/S1000_T4_O1.csv" false 1000 4 1
                  (means_of "size1000" spec_example))).
  vm_compute. reflexivity.
Defined.

(** ** The keys of [calculate_means] *)

Lemma calculate_means_keys_from np_sum read_csv files
    (init means : gmap string file_mean) :
  for_fold (λ (all_means : gmap string file_mean) file,
              content ← read_csv file;
              file_mean ← file_means np_sum content;
              Ok (<[file := file_mean]> all_means)) init files = Ok means →
  ∀ file, is_Some (means !! file) ↔ is_Some (init !! file) ∨ In file files.
Proof.
  revert init. induction files as [|f files IH]; intros init H file; cbn in H.
  - injection H as <-. cbn. tauto.
  - apply bind_Ok_inv in H as (m1 & H1 & H).
    apply bind_Ok_inv in H1 as (content & _ & H1).
    apply bind_Ok_inv in H1 as (fm & _ & [= <-]).
    rewrite (IH _ H file). cbn.
    destruct (decide (f = file)) as [->|Hne].
    + rewrite lookup_insert_eq. split; [by right; left|by left].
    + rewrite lookup_insert_ne by done. intuition congruence.
Qed.

(** X4. The dictionary [calculate_means] returns has one entry for every
    file of its list and no other key. *)
Theorem calculate_means_keys np_sum read_csv files
    (means : gmap string file_mean) :
  calculate_means np_sum read_csv files = Ok means →
  ∀ file, is_Some (means !! file) ↔ In file files.
Proof.
  intros H file. unfold calculate_means in H.
  rewrite (calculate_means_keys_from _ _ _ _ _ H file), lookup_empty.
  split; [intros [[? [=]]|]; done|by right].
Qed.

Lemma spec_example_keys :
  is_Some (means_of "size1000" spec_example !! "size1000/opt_1/S1000_T4_O1.csv") ∧
  ¬ is_Some (means_of "size1000" spec_example !! "size1000/table.csv").
Proof.
  pose proof (calculate_means_keys seq_sum
                (read_csv (tree_world ["evaluate.py"; "size1000"] "size1000" spec_example))
                ["size1000/opt_0/S1000_T0_O0.csv"; "size1000/opt_1/S1000_T0_O1.csv";
                 "size1000/opt_1/S1000_T4_O1.csv"]
                (means_of "size1000" spec_example)) as Hkeys.
  split.
  - apply Hkeys; [vm_compute; reflexivity|]. by right; right; left.
  - intros Hin. apply Hkeys in Hin; [|vm_compute; reflexivity].
    cbn in Hin. intuition discriminate.
Defined.

(** ** The exceptions of [column_mean] *)








(** ** Files whose means cannot be computed *)

Lemma file_means_missing_column np_sum content :
  df_lookup "time_init" content = None ∨ df_lookup "time_sort" content = None →
  ∃ e, file_means np_sum content = Raise e.
Proof.
  intros H. unfold file_means, columns. cbn [for_fold]. unfold df_col.
  destruct (df_lookup "time_init" content) as [d1|]; cbn; [|by eexists].
  destruct (column_mean np_sum d1); cbn; [|by eexists].
  destruct H as [H|H]; [discriminate H|]. rewrite H. cbn. by eexists.
Qed.

Lemma calculate_means_raises np_sum read_csv files file e :
  In file files →
  (read_csv file ≫= file_means np_sum) = Raise e →
  ∃ e', calculate_means np_sum read_csv files = Raise e'.
Proof.
  intros Hin Hraise. unfold calculate_means.
  apply (for_fold_raises _ _ file Hin). intros m. exists e. cbn beta.
  destruct (read_csv file) as [content|e1];
    [|change (@Raise file_mean e1 = Raise e) in Hraise; by injection Hraise as ->].
  change (file_means np_sum content = Raise e) in Hraise.
  change ((file_means np_sum content ≫= λ fm, Ok (<[file:=fm]> m)) = Raise e).
  by rewrite Hraise.
Qed.

(** X6. If one of the files [main] finds cannot be read or lacks the column
    [time_init] or [time_sort], the run ends with an exception before any
    table is written. *)
Theorem unusable_file_aborts np_sum w file :
  (2 ≤ length (argv w))%nat →
  In file (found_files w (nth 1 (argv w) "")) →
  (∃ e, read_csv w file = Raise e) ∨
  (∃ content, read_csv w file = Ok content ∧
     (df_lookup "time_init" content = None ∨
      df_lookup "time_sort" content = None)) →
  tables (main np_sum w) = [] ∧ ∃ e, status (main np_sum w) = Uncaught e.
Proof.
  intros Hlen Hin Hbad. unfold main.
  rewrite (proj2 (Nat.ltb_ge _ _) Hlen).
  destruct (found_files w (nth 1 (argv w) "")) as [|f files] eqn:Hfiles;
    [destruct Hin|].
  cbn [length Nat.eqb].
  assert (∃ e, (read_csv w file ≫= file_means np_sum) = Raise e) as [e He].
  { destruct Hbad as [[e Hr]|(content & Hr & Hcol)]; rewrite Hr; [by exists e|].
    cbn. by apply file_means_missing_column. }
  destruct (calculate_means_raises np_sum (read_csv w) (f :: files) file e Hin He)
    as [e' ->].
  split; [done|by exists e'].
Qed.

Lemma missing_column_aborts :
  tables (run_on "size10" missing_column) = [] ∧
  ∃ e, status (run_on "size10" missing_column) = Uncaught e.
Proof.
  apply (unusable_file_aborts seq_sum _ "size10/opt_1/S10_T0_O1.csv").
  - vm_compute. lia.
  - vm_compute. tauto.
  - right. exists [("time_init", samples 4)]. split; [reflexivity|by right].
Defined.

(** ** The tables and the directories *)

Lemma make_table_loop_dirs w files means subdirs st ts r :
  make_table_loop w files means subdirs st = (ts, r) →
  ∃ rest, scenarios subdirs = map table_dir ts ++ rest ∧ (r = Ok tt → rest = []).
Proof.
  revert st ts r. induction subdirs as [|d subdirs IH]; intros st ts r H.
  - injection H as <- <-. by exists [].
  - cbn [make_table_loop] in H. unfold scenarios. cbn [List.filter].
    unfold is_default_dir at 1.
    destruct (endswith d "opt_0"); cbn [negb].
    + destruct (default_step w means st d) as [st'|e].
      * by apply IH in H.
      * injection H as <- <-. by eexists.
    + destruct (scenario_step files means st d) as [st'|e].
      * destruct (write_table fields (rows st')).
        -- destruct (make_table_loop w files means subdirs _) as [ts' r'] eqn:Hloop.
           injection H as <- <-. apply IH in Hloop as (rest & Hrest & Hok).
           exists rest. cbn. split; [by f_equal|done].
        -- injection H as <- <-. by eexists.
      * injection H as <- <-. by eexists.
Qed.

(** X7. The tables [make_table] hands to the writer are those of the
    directories that do not end in [opt_0], in sorted order and without a
    gap: all of them when it returns, the first ones when it raises. *)
Theorem make_table_dirs w root_dir files means ts r :
  make_table w root_dir files means = (ts, r) →
  ∃ rest, scenarios (subdirs_of w root_dir) = map table_dir ts ++ rest ∧
          (r = Ok tt → rest = []).
Proof. apply make_table_loop_dirs. Qed.

Lemma parallel_later_dirs :
  ∃ rest,
    scenarios (subdirs_of (tree_world ["evaluate.py"; "size10"] "size10" parallel_later)
                          "size10") =
      map table_dir [mk_table "size10/opt_1"
                       [mk_row "Default" 10 0 0 (F64.of_Z 8) (F64.of_Z 12)
                               (F64.of_Z 20) [VInt 1; VInt 1];
                        mk_row "Serial" 10 0 1 (F64.of_Z 4) (F64.of_Z 6)
                               (F64.of_Z 10) [VInt 1; VInt 1];
                        mk_row "Parallel" 10 4 1 (F64.of_Z 1) (F64.of_Z 3)
                               (F64.of_Z 4)
                               [VFloat (F64.of_ratio false 5 2);
                                VFloat (F64.of_ratio false 5 8)]];
                     mk_table "size10/opt_2" parallel_later_rows] ++ rest ∧
    (Ok tt = Ok tt → rest = []).
Proof.
  apply (make_table_dirs _ "size10"
           (found_files (tree_world ["evaluate.py"; "size10"] "size10" parallel_later)
                        "size10")
           (means_of "size10" parallel_later)).
  vm_compute. reflexivity.
Defined.

Lemma file_rows_length means baseline files rs baseline' :
  file_rows means baseline files rs baseline' → length rs = length files.
Proof. induction 1; cbn; congruence. Qed.

(** X8. A table of a run has one row for the default case and one row for
    every measurement file whose path holds the name of its directory, in
    the sorted order of these files. *)
Theorem table_has_row_per_file np_sum w t :
  In t (tables (main np_sum w)) →
  length (table_rows t) =
    S (length (curr_files (found_files w (nth 1 (argv w) "")) (table_dir t))).
Proof.
  intros (means & _ & _ & fr & rs & b & b' & -> & _ & Hrs)%main_tables.
  cbn. f_equal. by eapply file_rows_length.
Qed.

Lemma spec_example_row_count :
  length (table_rows (mk_table "size1000/opt_1" spec_example_rows)) =
    S (length (curr_files
                 (found_files (tree_world ["evaluate.py"; "size1000"] "size1000" spec_example)
                    (nth 1 (argv (tree_world ["evaluate.py"; "size1000"] "size1000"
                                    spec_example)) ""))
                 (table_dir (mk_table "size1000/opt_1" spec_example_rows)))).
Proof.
  apply (table_has_row_per_file seq_sum). vm_compute. left. reflexivity.
Defined.

(** X9. With no directory at all [make_table] returns without a table; when
    the first directory in sorted order does not end in [opt_0], it raises
    [UnboundLocalError] ([first_row] is not assigned) without a table. *)
Theorem make_table_without_default w root_dir files means :
  (subdirs_of w root_dir = [] →
   make_table w root_dir files means = ([], Ok tt)) ∧
  (∀ d rest, subdirs_of w root_dir = d :: rest → is_default_dir d = false →
   make_table w root_dir files means = ([], Raise UnboundLocalError)).
Proof.
  split.
  - intros H. unfold make_table. by rewrite H.
  - intros d rest H Hd. unfold make_table. rewrite H. cbn [make_table_loop].
    unfold is_default_dir in Hd. by rewrite Hd.
Qed.

(** ** The check of the writer *)

Lemma write_table_full means rs :
  Forall (full_row means) rs → write_table fields rs = Ok tt.
Proof.
  intros H. unfold write_table.
  assert (forallb (λ r : row, (length r =? length fields)%nat) rs = true) as ->;
    [|done].
  apply forallb_forall. intros r Hr.
  rewrite Forall_forall in H. apply list_elem_of_In, H in Hr.
  apply Nat.eqb_eq. by eapply full_row_length.
Qed.

Lemma default_row_serial w means d fr :
  means_wf means →
  (∀ file s size n o, head (listdir w d) = Some file →
     parse_file_name file = Ok (s, size, n, o) → n = 0) →
  default_row w means d = Ok fr → full_row means fr.
Proof.
  intros Hwf Hserial H.
  destruct (default_row_shape _ _ _ _ Hwf H) as [Hfull|Hshort]; [done|].
  exfalso. unfold default_row in H.
  apply bind_Ok_inv in H as (file & Hfile%of_option_Ok_inv & H).
  apply bind_Ok_inv in H as ([[[s size] n] o] & Hparse & H).
  pose proof (Hserial _ _ _ _ _ Hfile Hparse) as ->.
  pose proof (parse_file_name_is_serial _ _ _ _ _ Hparse) as ->.
  rewrite bool_decide_true in H by done.
  apply (create_row_inv _ _ _ _ _ _ _ Hwf) in H as (ti & ts & te & _ & ->).
  by destruct Hshort as (? & ? & ? & ? & ? & ? & ? & _ & _ & [=]).
Qed.

Lemma make_table_loop_full w files means subdirs st ts r :
  means_wf means → rows st = [] →
  (∀ fr, first_row st = Some fr → full_row means fr) →
  (∀ d fr, In d subdirs → is_default_dir d = true →
     default_row w means d = Ok fr → full_row means fr) →
  make_table_loop w files means subdirs st = (ts, r) →
  Forall (λ t, table_fields t = fields ∧ Forall (full_row means) (table_rows t)) ts.
Proof.
  intros Hwf. revert st ts r.
  induction subdirs as [|d subdirs IH]; intros st ts r Hrows Hc Hdef H;
    cbn [make_table_loop] in H.
  - injection H as <- <-. constructor.
  - destruct (endswith d "opt_0") eqn:Hd.
    + destruct (default_step w means st d) as [st'|e] eqn:Hstep.
      * apply default_step_inv in Hstep as (fr & Hfr & ->).
        refine (IH _ _ _ _ _ _ H); [done| |].
        -- intros fr' [= <-]. eapply Hdef; [by left|done|done].
        -- intros; eapply Hdef; eauto; by right.
      * injection H as <- <-. constructor.
    + destruct (scenario_step files means st d) as [st'|e] eqn:Hs.
      * destruct (scenario_step_rows _ _ _ _ _ Hwf Hs)
          as (fr & rs & Hfr & Hrs & Hfiles).
        rewrite Hrows in Hrs. cbn in Hrs.
        destruct (scenario_step_inv _ _ _ _ _ Hs) as (fr' & _ & Hfr1 & Hfr2 & _).
        assert (Hfull : Forall (full_row means) (rows st')).
        { rewrite Hrs. constructor; [by apply Hc|by eapply file_rows_full]. }
        destruct (write_table fields (rows st')).
        -- destruct (make_table_loop w files means subdirs _) as [ts' r'] eqn:Hloop.
           injection H as <- <-. constructor; [done|].
           refine (IH _ _ _ _ _ _ Hloop); [done| |].
           ++ cbn. intros fr0 Hfr0. apply Hc. congruence.
           ++ intros; eapply Hdef; eauto; by right.
        -- injection H as <- <-. by repeat constructor.
      * injection H as <- <-. constructor.
Qed.

(** X10. When the first file of every directory ending in [opt_0] names 0
    threads, every row of every table of a run has the 9 entries of the
    header, and the check of the writer accepts every table handed to it. *)
Theorem serial_defaults_fit_header np_sum w :
  (∀ d file s size n o,
     In d (subdirs_of w (nth 1 (argv w) "")) → is_default_dir d = true →
     head (listdir w d) = Some file →
     parse_file_name file = Ok (s, size, n, o) → n = 0) →
  ∀ t, In t (tables (main np_sum w)) →
    write_table (table_fields t) (table_rows t) = Ok tt ∧
    ∀ r, In r (table_rows t) → length r = 9%nat.
Proof.
  intros Hserial t. unfold main.
  destruct (length (argv w) <? 2)%nat; [intros []|].
  set (directory := nth 1 (argv w) "") in *.
  set (files := found_files w directory).
  destruct (length files =? 0)%nat; [intros []|].
  destruct (calculate_means np_sum (read_csv w) files) as [means|e] eqn:Hmeans;
    [|intros []].
  destruct (make_table w directory files means) as [ts r] eqn:Hloop. cbn.
  intros Hin. pose proof (calculate_means_wf _ _ _ _ Hmeans) as Hwf.
  assert (Hall : Forall (λ t, table_fields t = fields ∧
                              Forall (full_row means) (table_rows t)) ts).
  { refine (make_table_loop_full _ _ _ _ _ _ _ Hwf _ _ _ Hloop);
      [done|by intros fr [=]|].
    intros d fr Hd Hdef Hrow. eapply default_row_serial; [done| |done].
    intros; eapply Hserial; eauto. }
  rewrite Forall_forall in Hall.
  destruct (Hall t) as [-> Hfull]; [by apply list_elem_of_In|].
  split; [by eapply write_table_full|].
  intros r0 Hr0. rewrite Forall_forall in Hfull.
  by apply list_elem_of_In, Hfull, full_row_length in Hr0.
Qed.

(** ** A parallel file with an elapsed time of 0 *)

Lemma file_step_parallel means st f size n o ti ts te :
  parse_file_name f = Ok (false, size, n, o) →
  means !! f = Some (summary ti ts te) →
  file_step means st f =
    time_serial ← of_option UnboundLocalError (time_serial st);
    speedup ← py_truediv time_serial te ≫= my_round;
    threads ← py_float_of_int n;
    efficiency ← py_truediv speedup threads ≫= my_round;
    Ok {| rows := rows st ++
                  [[VStr "Parallel"; VInt size; VInt n; VInt o; VFloat ti;
                    VFloat ts; VFloat te; VFloat speedup; VFloat efficiency]];
          first_row := first_row st; time_serial := Some time_serial |}.
Proof.
  intros Hparse Hfm. unfold file_step. rewrite Hparse. cbn.
  by rewrite (create_row_summary _ _ _ _ _ _ _ _ _ Hfm), Hfm.
Qed.

(** X11. A parallel file whose [time_elapsed] is 0.0 makes the division of
    the speedup raise [ZeroDivisionError] as soon as a serial time is
    assigned; in either case its directory gets no table and the loop
    stops. *)
Theorem zero_elapsed_parallel_aborts means f size n o ti ts te :
  parse_file_name f = Ok (false, size, n, o) →
  means !! f = Some (summary ti ts te) →
  F64.is_zero te = true →
  (∀ st b, time_serial st = Some b →
     file_step means st f = Raise ZeroDivisionError) ∧
  (∀ w files st d rest,
     is_default_dir d = false → In f (curr_files files d) →
     ∃ e, make_table_loop w files means (d :: rest) st = ([], Raise e)).
Proof.
  intros Hparse Hfm Hzero.
  assert (Hstep : ∀ st b, time_serial st = Some b →
                          file_step means st f = Raise ZeroDivisionError).
  { intros st b Hb. rewrite (file_step_parallel _ _ _ _ _ _ _ _ _ Hparse Hfm), Hb.
    cbn. unfold py_truediv. by rewrite Hzero. }
  split; [done|].
  intros w files st d rest Hd Hin. cbn [make_table_loop].
  unfold is_default_dir in Hd. rewrite Hd.
  assert (∃ e, scenario_step files means st d = Raise e) as [e ->]; [|by exists e].
  unfold scenario_step. destruct (first_row st) as [fr|]; cbn; [|by eexists].
  apply (for_fold_raises _ _ f Hin). intros s.
  destruct (time_serial s) as [b|] eqn:Hb; [exists ZeroDivisionError; by eapply Hstep|].
  exists UnboundLocalError.
  by rewrite (file_step_parallel _ _ _ _ _ _ _ _ _ Hparse Hfm), Hb.
Qed.

(** ** A file with a single data row *)

Lemma column_mean_single np_sum x :
  (∀ y, np_sum [y] = y) → F64.valid x = true → F64.is_finite x = true →
  column_mean np_sum [x] = Ok F64.zero.
Proof.
  intros Hsum Hv Hf. unfold column_mean.
  rewrite (norm_fit_single np_sum x Hsum Hv Hf). cbn.
  by rewrite (inside_single x Hf).
Qed.

(** X12. A measurement file with a single data row gets the means 0.0,
    0.0 and the elapsed time 0.0, whatever the two measured times. *)
Theorem single_row_file np_sum time_init time_sort :
  (∀ y, np_sum [y] = y) →
  F64.valid time_init = true → F64.is_finite time_init = true →
  F64.valid time_sort = true → F64.is_finite time_sort = true →
  file_means np_sum (single_row time_init time_sort) =
    Ok (summary F64.zero F64.zero F64.zero).
Proof.
  intros Hsum Hv1 Hf1 Hv2 Hf2. unfold file_means, columns, single_row.
  cbn [for_fold]. unfold df_col. cbn [df_lookup String.eqb Ascii.eqb Bool.eqb
                                      of_option mbind result_bind].
  rewrite !column_mean_single by done. reflexivity.
Qed.

Lemma no_default_aborts :
  make_table (tree_world ["evaluate.py"; "size10"] "size10" no_default) "size10"
    (found_files (tree_world ["evaluate.py"; "size10"] "size10" no_default) "size10")
    (means_of "size10" no_default) = ([], Raise UnboundLocalError).
Proof.
  apply (proj2 (make_table_without_default _ _ _ _) "size10/opt_1" []);
    vm_compute; reflexivity.
Defined.

Lemma spec_example_fits_header :
  write_table (table_fields (mk_table "size1000/opt_1" spec_example_rows))
              (table_rows (mk_table "size1000/opt_1" spec_example_rows)) = Ok tt ∧
  ∀ r, In r (table_rows (mk_table "size1000/opt_1" spec_example_rows)) →
       length r = 9%nat.
Proof.
  apply (serial_defaults_fit_header seq_sum
           (tree_world ["evaluate.py"; "size1000"] "size1000" spec_example)).
  - intros d file s size n o Hd Hdef Hfile Hparse.
    vm_compute in Hd. destruct Hd as [<-|[<-|[]]].
    + vm_compute in Hfile. injection Hfile as <-.
      vm_compute in Hparse. by injection Hparse as _ _ <- _.
    + vm_compute in Hdef. discriminate Hdef.
  - vm_compute. left. reflexivity.
Defined.

Example single_trial_run :
  run_on "size10" single_trial =
    {| stdout := ["Calculating means..."; "Creating tables and plots..."];
       tables := []; status := Uncaught ZeroDivisionError |}.
Proof. vm_compute. reflexivity. Qed.

Lemma single_trial_division :
  (∀ st b, time_serial st = Some b →
     file_step (means_of "size10" single_trial) st "size10/opt_1/S10_T4_O1.csv"
       = Raise ZeroDivisionError) ∧
  (∀ w files st d rest,
     is_default_dir d = false →
     In "size10/opt_1/S10_T4_O1.csv" (curr_files files d) →
     ∃ e, make_table_loop w files (means_of "size10" single_trial) (d :: rest) st
            = ([], Raise e)).
Proof.
  apply (zero_elapsed_parallel_aborts (means_of "size10" single_trial)
           "size10/opt_1/S10_T4_O1.csv" 10 4 1 F64.zero F64.zero F64.zero);
    vm_compute; reflexivity.
Defined.

Lemma single_row_1_3 :
  file_means seq_sum (single_row (F64.of_Z 1) (F64.of_Z 3)) =
    Ok (summary F64.zero F64.zero F64.zero).
Proof.
  apply (single_row_file seq_sum); [intros y; reflexivity|reflexivity..].
Defined.

(** ** The axes of a plot *)

Lemma row_field_at (r : row) name i :
  list_index name fields = Some i → (i < length r)%nat →
  row_field fields r name = Ok (entry i r).
Proof.
  intros Hi Hlen. unfold row_field. rewrite Hi. cbn.
  destruct (r !! i) as [v|] eqn:Hv.
  - cbn. f_equal. unfold entry. symmetry. by apply nth_lookup_Some with (d := VInt 0) in Hv.
  - apply lookup_ge_None in Hv. lia.
Qed.

Lemma list_index_lt name l i : list_index name l = Some i → (i < length l)%nat.
Proof.
  revert i. induction l as [|x l IH]; intros i; [done|]. cbn [list_index].
  destruct (String.eqb x name); [intros [= <-]; cbn; lia|].
  destruct (list_index name l) as [j|]; [|done].
  intros [= <-]. cbn. specialize (IH j eq_refl). lia.
Qed.

Lemma axes_step_at y_data iy xy (r : row) :
  list_index y_data fields = Some iy → length r = length fields →
  axes_step fields y_data xy r =
    Ok (if value_is (entry 0 r) "Parallel"
        then (xy.1 ++ [entry 2 r], xy.2 ++ [entry iy r]) else xy).
Proof.
  intros Hy Hlen. unfold axes_step.
  pose proof (list_index_lt _ _ _ Hy) as Hiy.
  rewrite (row_field_at r "Type" 0) by (done || rewrite Hlen; cbn; lia).
  cbn [mbind result_bind].
  destruct (value_is (entry 0 r) "Parallel"); [|done].
  rewrite (row_field_at r "Threads" 2) by (done || rewrite Hlen; cbn; lia).
  rewrite (row_field_at r y_data iy) by (done || lia).
  done.
Qed.

Lemma parallel_rows_cons (r : row) rows :
  (0 < length r)%nat →
  parallel_rows (r :: rows) =
    if value_is (entry 0 r) "Parallel" then r :: parallel_rows rows
    else parallel_rows rows.
Proof.
  intros Hlen. unfold parallel_rows. cbn [List.filter].
  destruct r as [|v r]; [cbn in Hlen; lia|]. done.
Qed.

Lemma get_axes_data_from y_data iy rows x y :
  list_index y_data fields = Some iy →
  Forall (λ r : row, length r = length fields) rows →
  for_fold (axes_step fields y_data) (x, y) rows =
    Ok (x ++ map (entry 2) (parallel_rows rows),
        y ++ map (entry iy) (parallel_rows rows)).
Proof.
  intros Hy Hrows. revert x y.
  induction Hrows as [|r rows Hr _ IH]; intros x y.
  - cbn. by rewrite !app_nil_r.
  - cbn [for_fold]. rewrite (axes_step_at _ _ _ _ Hy Hr). cbn [mbind result_bind].
    rewrite parallel_rows_cons by (rewrite Hr; cbn; lia).
    destruct (value_is (entry 0 r) "Parallel"); cbn [fst snd].
    + rewrite IH. cbn [map]. by rewrite <- !app_assoc.
    + apply IH.
Qed.

Lemma write_table_lengths fs rows :
  write_table fs rows = Ok tt → Forall (λ r : row, length r = length fs) rows.
Proof.
  unfold write_table.
  destruct (forallb _ rows) eqn:H; [|done]. intros _.
  rewrite forallb_forall in H. apply Forall_forall. intros r Hr.
  by apply list_elem_of_In, H, Nat.eqb_eq in Hr.
Qed.

(** X13. For a table the writer accepted, [get_axes_data] raises nothing:
    the two axes start at 0 and hold, in the order of the rows, the thread
    count and the requested field of every Parallel row, so they have the
    same length. *)
Theorem axes_of_written_table rows y_data iy :
  write_table fields rows = Ok tt →
  list_index y_data fields = Some iy →
  get_axes_data fields rows y_data =
    Ok (VInt 0 :: map (entry 2) (parallel_rows rows),
        VInt 0 :: map (entry iy) (parallel_rows rows)).
Proof.
  intros Hw Hy. unfold get_axes_data.
  by rewrite (get_axes_data_from _ _ _ _ _ Hy (write_table_lengths _ _ Hw)).
Qed.

Lemma spec_example_axes :
  get_axes_data fields spec_example_rows "Speedup" =
    Ok (VInt 0 :: map (entry 2) (parallel_rows spec_example_rows),
        VInt 0 :: map (entry 7) (parallel_rows spec_example_rows)).
Proof. apply axes_of_written_table; reflexivity. Defined.

Example spec_example_axes_values :
  get_axes_data fields spec_example_rows "Efficiency" =
    Ok ([VInt 0; VInt 4], [VInt 0; VFloat (F64.of_ratio false 83333 100000)]).
Proof. vm_compute. reflexivity. Qed.

(** ** The files of a run and of a directory *)

Lemma sorted_In x l : In x (sorted l) ↔ In x l.
Proof.
  split; intros H.
  - eapply Permutation_in; [symmetry; apply sorted_perm|done].
  - eapply Permutation_in; [apply sorted_perm|done].
Qed.

(** X14. The files [main] takes as input are, in ascending order, the
    paths [root/file] of the walked files whose name ends in [.csv] and does
    not hold [table]: the tables written by an earlier run are never read
    back. *)
Theorem found_files_spec w directory :
  Sorted (λ a b, String.leb a b = true) (found_files w directory) ∧
  ∀ path, In path (found_files w directory) ↔
    ∃ root files_found file,
      In (root, files_found) (walk w directory) ∧ In file files_found ∧
      endswith file ".csv" = true ∧ find "table" file = None ∧
      path = path_join root file.
Proof.
  split; [apply sorted_ascending|].
  intros path. unfold found_files. rewrite sorted_In, in_flat_map. split.
  - intros ([root fs] & Hroot & Hpath).
    apply in_map_iff in Hpath as (file & <- & Hfile).
    apply filter_In in Hfile as [Hfile Hq]. unfold qualifying in Hq.
    apply andb_true_iff in Hq as [Hcsv Htable%bool_decide_eq_true].
    by exists root, fs, file.
  - intros (root & fs & file & Hroot & Hfile & Hcsv & Htable & ->).
    exists (root, fs). split; [done|]. apply in_map_iff. exists file.
    split; [done|]. apply filter_In. split; [done|].
    unfold qualifying. rewrite Hcsv. cbn. by apply bool_decide_eq_true.
Qed.

(** X15. The files of a directory are, in ascending order, the files of the
    run whose path holds the path of the directory followed by a slash. *)
Theorem curr_files_spec files subdir :
  Sorted (λ a b, String.leb a b = true) (curr_files files subdir) ∧
  ∀ file, In file (curr_files files subdir) ↔
    In file files ∧ is_Some (find (subdir +:+ "/") file).
Proof.
  split; [apply sorted_ascending|].
  intros file. unfold curr_files. rewrite sorted_In, filter_In.
  by rewrite bool_decide_eq_true.
Qed.

(** ** The sign of a rounded value *)

Lemma binary_round_aux_opp s m e l :
  binary_round_aux F64.prec F64.emax (negb s) m e l =
    SFopp (binary_round_aux F64.prec F64.emax s m e l).
Proof.
  unfold binary_round_aux.
  destruct (shr_fexp F64.prec F64.emax m e l) as [mrs e1].
  destruct (shr_fexp F64.prec F64.emax _ e1 loc_Exact) as [mrs' e2].
  destruct (shr_m mrs'); [done| |done].
  by destruct (e2 <=? F64.emax - F64.prec).
Qed.

(** X16. [my_round] is symmetric: the opposite of a value rounds to the
    opposite of its rounding, and raises when the value does. *)
Theorem my_round_opp x : my_round (SFopp x) = SFopp <$> my_round x.
Proof.
  destruct x as [s|s| |s m e]; cbn [SFopp my_round fmap result_fmap]; try done.
  destruct (decimal_prec_limit <=? quantize5 m e); [done|].
  destruct (quantize5 m e) as [|p|p]; [done| |done].
  unfold F64.of_ratio.
  destruct (SFdiv_core_binary F64.prec F64.emax (Z.pos p) 0 100000 0) as [[q e'] l].
  cbn [fmap result_fmap]. f_equal. apply binary_round_aux_opp.
Qed.

Lemma spec_example_found :
  In "size1000/opt_1/S1000_T4_O1.csv"
     (found_files (tree_world ["evaluate.py"; "size1000"] "size1000" spec_example)
                  "size1000").
Proof.
  apply (proj2 (found_files_spec _ "size1000")).
  exists "size1000/opt_1", ["S1000_T0_O1.csv"; "S1000_T4_O1.csv"], "S1000_T4_O1.csv".
  vm_compute. tauto.
Defined.

Lemma spec_example_curr_files :
  In "size1000/opt_1/S1000_T4_O1.csv"
     (curr_files ["size1000/opt_0/S1000_T0_O0.csv"; "size1000/opt_1/S1000_T4_O1.csv"]
                 "size1000/opt_1").
Proof.
  apply (proj2 (curr_files_spec _ "size1000/opt_1")).
  split; [by right; left|]. vm_compute. by eexists.
Defined.

(** ** Directories without files *)

(** X17. A directory ending in [opt_0] that lists no file raises
    [IndexError] and ends the loop; any other directory without a
    measurement file gets a table that holds the default row alone. *)
Theorem directory_without_files w files means st d rest :
  (is_default_dir d = true → listdir w d = [] →
   make_table_loop w files means (d :: rest) st = ([], Raise IndexError)) ∧
  (∀ fr, is_default_dir d = false → curr_files files d = [] →
     rows st = [] → first_row st = Some fr → length fr = length fields →
     make_table_loop w files means (d :: rest) st =
       let '(ts, r) := make_table_loop w files means rest st in
       (mk_table d [fr] :: ts, r)).
Proof.
  split.
  - intros Hd Hlist. cbn [make_table_loop]. unfold is_default_dir in Hd.
    rewrite Hd. unfold default_step. by rewrite Hlist.
  - intros fr Hd Hfiles Hrows Hfr Hlen. cbn [make_table_loop].
    unfold is_default_dir in Hd. rewrite Hd.
    unfold scenario_step. rewrite Hfr, Hfiles, Hrows. cbn.
    unfold write_table. cbn [forallb]. rewrite (proj2 (Nat.eqb_eq _ _) Hlen). cbn.
    destruct st as [rs fr' b]. cbn in *. by subst.
Qed.

Lemma empty_scenario_table :
  make_table_loop (tree_world ["evaluate.py"; "size10"] "size10" empty_scenario)
    (found_files (tree_world ["evaluate.py"; "size10"] "size10" empty_scenario) "size10")
    (means_of "size10" empty_scenario) ["size10/opt_1"]
    {| rows := [];
       first_row := Some (mk_row "Default" 10 0 0 (F64.of_Z 8) (F64.of_Z 12)
                                 (F64.of_Z 20) [VInt 1; VInt 1]);
       time_serial := None |} =
  ([mk_table "size10/opt_1"
      [mk_row "Default" 10 0 0 (F64.of_Z 8) (F64.of_Z 12) (F64.of_Z 20)
              [VInt 1; VInt 1]]], Ok tt).
Proof.
  apply (proj2 (directory_without_files _ _ _ _ "size10/opt_1" [])); reflexivity.
Defined.

Example empty_scenario_run :
  run_on "size10" empty_scenario =
    {| stdout := ["Calculating means..."; "Creating tables and plots..."];
       tables := [mk_table "size10/opt_1"
                    [mk_row "Default" 10 0 0 (F64.of_Z 8) (F64.of_Z 12)
                            (F64.of_Z 20) [VInt 1; VInt 1]]];
       status := Completed |}.
Proof. vm_compute. reflexivity. Qed.
